(** * SourceForge tickets to GitHub issues: a shallow embedding

    This development embeds [sf_tickets_to_github.py] in Rocq and proves
    properties of its three working parts:

    - the record transformer [TicketMigrator.convert_ticket_to_issue];
    - the paginated reader [SourceForgeTicketsFetcher.fetch_tickets];
    - the orchestrator [TicketMigrator.migrate_tickets].

    Python values are the values [json.loads] produces: [None], booleans,
    integers, strings, lists and dictionaries.  Floating point numbers are
    left out.  A string is a sequence of code points below 256 (the Latin-1
    range of [str]); on that range [str.lower] works character by character.
    A dictionary is an association list in insertion order; [json.loads]
    never yields the same key twice, and a lookup takes the first binding.

    Operations that raise in Python return [Raise] here, with the exception
    class the interpreter would raise.  [pathlib.Path] is the POSIX flavour.
    The network is an oracle: a function from the actions performed so far
    and the next request to a response; a response is a decoded JSON body
    or a [requests.exceptions.RequestException] (which, in [requests], also
    covers a status error and a body that is not JSON).  HTTP headers and
    time-outs are fixed per run and left out of the requests.  Logging is
    left out, except where building the log message can raise. *)

From Stdlib Require Import String Ascii List ZArith NArith Bool Lia.
From Stdlib Require Import Numbers.DecimalString.
Import ListNotations.

Open Scope list_scope.
Open Scope string_scope.

Set Warnings "-register-all".

(* ================================================================= *)
(** ** Python values and exceptions *)

Inductive json : Type :=
| JNull
| JBool (b : bool)
| JInt (z : Z)
| JStr (s : string)
| JList (l : list json)
| JDict (kvs : list (string * json)).

Inductive exn : Type :=
| AttributeError
| TypeError
| KeyError.

Inductive result (A : Type) : Type :=
| Ok (a : A)
| Raise (e : exn).

Arguments Ok {A} a.
Arguments Raise {A} e.

Definition bind {A B : Type} (m : result A) (k : A -> result B) : result B :=
  match m with
  | Ok a => k a
  | Raise e => Raise e
  end.

Declare Scope py_scope.
Delimit Scope py_scope with py.
Notation "x <- m ;; k" := (bind m (fun x => k))
  (at level 61, m at next level, right associativity) : py_scope.
Open Scope py_scope.

(** [try: ... except Exception: ...] *)
Definition try_except {A : Type} (m : result A) (handler : A) : A :=
  match m with
  | Ok a => a
  | Raise _ => handler
  end.

(** [l.append(x)] and [l.extend(xs)] *)
Definition append {A : Type} (l : list A) (x : A) : list A := List.app l [x].
Definition extend {A : Type} (l xs : list A) : list A := List.app l xs.

(** [bool(v)] *)
Definition truthy (v : json) : bool :=
  match v with
  | JNull => false
  | JBool b => b
  | JInt z => negb (Z.eqb z 0)
  | JStr s => negb (String.eqb s "")
  | JList l => match l with [] => false | _ => true end
  | JDict kvs => match kvs with [] => false | _ => true end
  end.

Fixpoint dict_get (kvs : list (string * json)) (key : string) : option json :=
  match kvs with
  | [] => None
  | (k, v) :: rest => if String.eqb k key then Some v else dict_get rest key
  end.

(** [v.get(key, default)]: only dictionaries have [get]. *)
Definition py_get (v : json) (key : string) (default : json) : result json :=
  match v with
  | JDict kvs =>
      Ok (match dict_get kvs key with Some x => x | None => default end)
  | _ => Raise AttributeError
  end.

(** [v[key]] with a string key. *)
Definition py_getitem (v : json) (key : string) : result json :=
  match v with
  | JDict kvs =>
      match dict_get kvs key with Some x => Ok x | None => Raise KeyError end
  | _ => Raise TypeError
  end.

(* ================================================================= *)
(** ** Strings *)

Definition nl : string := String "010"%char "".
Definition dquote : ascii := "034"%char.
Definition squote : ascii := "039"%char.
Definition backslash : ascii := "092"%char.

Definition lower_char (c : ascii) : ascii :=
  let n := N_of_ascii c in
  if ((65 <=? n) && (n <=? 90) || (192 <=? n) && (n <=? 214)
      || (216 <=? n) && (n <=? 222))%N
  then ascii_of_N (n + 32) else c.

(** [s.lower()] *)
Fixpoint py_lower (s : string) : string :=
  match s with
  | "" => ""
  | String c s' => String (lower_char c) (py_lower s')
  end.

(** [s.replace(old, new)] for a pattern [old] of one character. *)
Fixpoint py_replace (old : ascii) (new : string) (s : string) : string :=
  match s with
  | "" => ""
  | String c s' =>
      if Ascii.eqb c old then new ++ py_replace old new s'
      else String c (py_replace old new s')
  end.

(** [s.split(sep)] for a separator of one character. *)
Fixpoint py_split (sep : ascii) (s : string) : list string :=
  match s with
  | "" => [""]
  | String c s' =>
      if Ascii.eqb c sep then "" :: py_split sep s'
      else match py_split sep s' with
           | [] => [String c ""]
           | x :: xs => String c x :: xs
           end
  end.

(** [s.startswith(p)] *)
Definition py_startswith (s p : string) : bool := String.prefix p s.

(** [s.endswith(suffix)]: [s] is [suffix], or what follows its first
    character ends with [suffix]. *)
Fixpoint py_endswith (s suffix : string) : bool :=
  String.eqb s suffix
  || match s with
     | "" => false
     | String _ s' => py_endswith s' suffix
     end.

(** [sep.join(parts)] on strings. *)
Definition join (sep : string) (parts : list string) : string :=
  String.concat sep parts.

Definition hex_digit (n : N) : ascii :=
  if (n <? 10)%N then ascii_of_N (48 + n) else ascii_of_N (87 + n).

Definition printable (c : ascii) : bool :=
  let n := N_of_ascii c in
  ((32 <=? n) && (n <? 127) || (161 <=? n) && negb (n =? 173))%N.

Fixpoint mem_char (c : ascii) (s : string) : bool :=
  match s with
  | "" => false
  | String d s' => Ascii.eqb c d || mem_char c s'
  end.

Fixpoint repr_chars (q : ascii) (s : string) : string :=
  match s with
  | "" => ""
  | String c s' =>
      (if Ascii.eqb c q || Ascii.eqb c backslash
       then String backslash (String c "")
       else if Ascii.eqb c "009"%char then "\t"
       else if Ascii.eqb c "010"%char then "\n"
       else if Ascii.eqb c "013"%char then "\r"
       else if printable c then String c ""
       else let n := N_of_ascii c in
            "\x" ++ String (hex_digit (n / 16)) (String (hex_digit (n mod 16)) ""))
      ++ repr_chars q s'
  end.

(** [repr(s)] of a string. *)
Definition repr_str (s : string) : string :=
  let q := if mem_char squote s && negb (mem_char dquote s)
           then dquote else squote in
  String q (repr_chars q s ++ String q "").

Definition str_of_Z (z : Z) : string := NilEmpty.string_of_int (Z.to_int z).

(** [repr(v)] *)
Fixpoint py_repr (v : json) : string :=
  match v with
  | JNull => "None"
  | JBool true => "True"
  | JBool false => "False"
  | JInt z => str_of_Z z
  | JStr s => repr_str s
  | JList l => "[" ++ join ", " (map py_repr l) ++ "]"
  | JDict kvs =>
      "{" ++ join ", " (map (fun kv => repr_str (fst kv) ++ ": " ++ py_repr (snd kv)) kvs)
          ++ "}"
  end.

(** [str(v)], which is also what an f-string field [{v}] renders. *)
Definition py_str (v : json) : string :=
  match v with
  | JStr s => s
  | _ => py_repr v
  end.

(** The elements a [for] loop visits: the items of a list, the characters
    of a string, the keys of a dictionary.  Other values are not iterable. *)
Fixpoint chars (s : string) : list json :=
  match s with
  | "" => []
  | String c s' => JStr (String c "") :: chars s'
  end.

Definition py_iter (v : json) : result (list json) :=
  match v with
  | JList l => Ok l
  | JStr s => Ok (chars s)
  | JDict kvs => Ok (map (fun kv => JStr (fst kv)) kvs)
  | _ => Raise TypeError
  end.

(** [for x in iterable: state = body(state, x)] *)
Fixpoint for_each {S : Type} (xs : list json) (body : S -> json -> result S)
         (s : S) : result S :=
  match xs with
  | [] => Ok s
  | x :: rest => s' <- body s x ;; for_each rest body s'
  end.

Definition py_for {S : Type} (iterable : json) (s : S)
           (body : S -> json -> result S) : result S :=
  xs <- py_iter iterable ;; for_each xs body s.

(** String methods, which only strings have. *)
Definition str_lower (v : json) : result string :=
  match v with JStr s => Ok (py_lower s) | _ => Raise AttributeError end.

Definition str_split (v : json) (sep : ascii) : result (list string) :=
  match v with JStr s => Ok (py_split sep s) | _ => Raise AttributeError end.

Definition str_startswith (v : json) (p : string) : result bool :=
  match v with JStr s => Ok (py_startswith s p) | _ => Raise AttributeError end.

(** [sep.join(parts)] on arbitrary items: every item must be a string. *)
Fixpoint strings_of (parts : list json) : result (list string) :=
  match parts with
  | [] => Ok []
  | JStr s :: rest => ss <- strings_of rest ;; Ok (s :: ss)
  | _ :: _ => Raise TypeError
  end.

Definition py_join (sep : string) (parts : list json) : result string :=
  ss <- strings_of parts ;; Ok (join sep ss).

(** [PurePosixPath(p).name]: the last component of [p] that is neither
    empty nor a single dot, or the empty string when there is none. *)
Definition path_tail (p : string) : list string :=
  filter (fun x => negb (String.eqb x "") && negb (String.eqb x "."))
         (py_split "/" p).

Definition path_name (p : string) : string := last (path_tail p) "".

(* ================================================================= *)
(** ** The record transformer *)

Definition IMAGE_EXTENSIONS : list string :=
  [".png"; ".jpg"; ".jpeg"; ".gif"; ".bmp"; ".svg"; ".webp"].

Record IssueDraft : Type := mkDraft {
  title : string;
  body : string;
  labels : list string;
  comments : list string
}.

(** The body of [for att in attachments], threading [body_parts]. *)
Definition attachment_step (body_parts : list json) (att : json)
  : result (list json) :=
  url <- py_get att "url" (JStr "") ;;
  if truthy url then
    let filename :=
      try_except
        (parts <- str_split url "?" ;;
         let url_path := hd "" parts in
         Ok (if negb (String.eqb (path_name url_path) "")
             then path_name url_path else "attachment"))
        "attachment" in
    http <- str_startswith url "http://" ;;
    https <- (if http then Ok true else str_startswith url "https://") ;;
    full_url <-
      (if https then Ok (py_str url)
       else
         root <- str_startswith url "/" ;;
         if root then Ok ("https://sourceforge.net" ++ py_str url)
         else Ok ("https://sourceforge.net/" ++ py_str url)) ;;
    let lower_filename := py_lower filename in
    if existsb (fun ext => py_endswith lower_filename ext) IMAGE_EXTENSIONS
    then Ok (append body_parts (JStr ("![" ++ filename ++ "](" ++ full_url ++ ")")))
    else Ok (append body_parts (JStr ("- [" ++ filename ++ "](" ++ full_url ++ ")")))
  else Ok body_parts.

(** The body of [for label in sf_labels], threading [labels]. *)
Definition label_step (labels : list string) (label : json)
  : result (list string) :=
  if truthy label then
    let sanitized_label := py_replace " " "-" (py_lower (py_str label)) in
    Ok (append labels sanitized_label)
  else Ok labels.

(** The body of [for post in posts], threading [comments]. *)
Definition post_step (comments : list string) (post : json)
  : result (list string) :=
  author <- py_get post "author" (JStr "unknown") ;;
  timestamp <- py_get post "timestamp" (JStr "") ;;
  text <- py_get post "text" (JStr "") ;;
  if truthy text then
    let comment_parts :=
      [ JStr ("**Comment by " ++ py_str author ++ "** *(SourceForge)*");
        JStr ("**Date:** " ++ py_str timestamp);
        JStr "";
        text ] in
    c <- py_join nl comment_parts ;;
    Ok (append comments c)
  else Ok comments.

Definition convert_ticket_to_issue (ticket detailed_ticket : json)
  : result IssueDraft :=
  detailed_data <-
    (if truthy detailed_ticket
     then py_get detailed_ticket "ticket" (JDict [])
     else Ok (JDict [])) ;;
  ticket_num <- py_get ticket "ticket_num" (JStr "") ;;
  summary <- py_get ticket "summary" (JStr "No summary") ;;
  status <- py_get ticket "status" (JStr "") ;;
  created_date <- py_get ticket "created_date" (JStr "") ;;
  mod_date <- py_get ticket "mod_date" (JStr "") ;;
  reporter <- py_get ticket "reported_by" (JStr "unknown") ;;
  detailed_description <- py_get detailed_data "description" JNull ;;
  description <-
    (if truthy detailed_description then Ok detailed_description
     else py_get ticket "description" (JStr "")) ;;
  let title := "[SF#" ++ py_str ticket_num ++ "] " ++ py_str summary in
  let body_parts :=
    [ JStr ("**Migrated from SourceForge ticket #" ++ py_str ticket_num ++ "**");
      JStr "";
      JStr ("**Original Reporter:** " ++ py_str reporter);
      JStr ("**Created:** " ++ py_str created_date);
      JStr ("**Last Modified:** " ++ py_str mod_date);
      JStr ("**Status:** " ++ py_str status);
      JStr "";
      JStr "---";
      JStr "";
      JStr "## Description";
      JStr "";
      if truthy description then description
      else JStr "*(No description provided)*" ] in
  attachments <- py_get detailed_data "attachments" (JList []) ;;
  body_parts <-
    (if truthy attachments then
       let body_parts :=
         extend body_parts [JStr ""; JStr "---"; JStr ""; JStr "## Attachments"; JStr ""] in
       py_for attachments body_parts attachment_step
     else Ok body_parts) ;;
  body <- py_join nl body_parts ;;
  let labels := ["migrated-from-sourceforge"] in
  labels <-
    (if truthy status then
       lowered <- str_lower status ;;
       let sanitized_status := py_replace " " "-" lowered in
       Ok (append labels ("sf-status-" ++ sanitized_status))
     else Ok labels) ;;
  sf_labels <- py_get detailed_data "labels" (JList []) ;;
  labels <-
    (if truthy sf_labels then py_for sf_labels labels label_step
     else Ok labels) ;;
  let comments := [] in
  discussion_thread <- py_get detailed_data "discussion_thread" (JDict []) ;;
  posts <- py_get discussion_thread "posts" (JList []) ;;
  comments <- py_for posts comments post_step ;;
  Ok (mkDraft title body labels comments).

(* ================================================================= *)
(** ** The network: requests, responses and the trace of a run *)

Inductive request : Type :=
| Get (url : string) (params : list (string * json))
| Post (url : string) (payload : json).

(** What [requests.get]/[requests.post] followed by [raise_for_status]
    and [response.json()] gives: a decoded body, or a
    [requests.exceptions.RequestException]. *)
Inductive response : Type :=
| RequestException
| Body (data : json).

(** What the outside world has seen of the run. *)
Inductive action : Type :=
| Sent (rq : request)
| Waited (seconds : nat).

(** The trace of a run: every request with the response it got, and every
    [time.sleep]. *)
Inductive event : Type :=
| Requested (rq : request) (rs : response)
| Slept (seconds : nat).

Definition action_of (e : event) : action :=
  match e with
  | Requested rq _ => Sent rq
  | Slept n => Waited n
  end.

Definition history (log : list event) : list action := map action_of log.

(** The outcome of a computation that talks to the network: a value, an
    exception that nothing caught, or a loop still running when the fuel
    ran out. *)
Inductive outcome (A : Type) : Type :=
| Return (a : A)
| Throw (e : exn)
| Spin.

Arguments Return {A} a.
Arguments Throw {A} e.
Arguments Spin {A}.

Definition IO (A : Type) : Type := list event -> outcome A * list event.

Definition ret {A : Type} (a : A) : IO A := fun log => (Return a, log).

Definition io_bind {A B : Type} (m : IO A) (k : A -> IO B) : IO B :=
  fun log =>
    match m log with
    | (Return a, log') => k a log'
    | (Throw e, log') => (Throw e, log')
    | (Spin, log') => (Spin, log')
    end.

Definition lift {A : Type} (r : result A) : IO A :=
  fun log =>
    match r with
    | Ok a => (Return a, log)
    | Raise e => (Throw e, log)
    end.

Definition sleep (seconds : nat) : IO unit :=
  fun log => (Return tt, append log (Slept seconds)).

Declare Scope io_scope.
Delimit Scope io_scope with io.
Notation "x <-- m ;; k" := (io_bind m (fun x => k))
  (at level 61, m at next level, right associativity) : io_scope.
Notation "m ;;; k" := (io_bind m (fun _ => k))
  (at level 61, right associativity) : io_scope.
Open Scope io_scope.

(** [for x in xs: state = body(state, x)] with network effects. *)
Fixpoint io_for {X S : Type} (xs : list X) (body : S -> X -> IO S) (s : S)
  : IO S :=
  match xs with
  | [] => ret s
  | x :: rest => s' <-- body s x ;; io_for rest body s'
  end.

(** [len(tickets) >= count] *)
Definition len_ge (n : nat) (count : json) : result bool :=
  match count with
  | JInt z => Ok (z <=? Z.of_nat n)%Z
  | JBool b => Ok ((if b then 1 else 0) <=? Z.of_nat n)%Z
  | _ => Raise TypeError
  end.

(** [tickets.extend(v)] *)
Definition py_extend (tickets : list json) (v : json) : result (list json) :=
  xs <- py_iter v ;; Ok (extend tickets xs).

(** [v != s] for a string [s] *)
Definition ne_str (v : json) (s : string) : bool :=
  match v with
  | JStr s' => negb (String.eqb s' s)
  | _ => true
  end.

(** [tickets[:limit]] *)
Definition slice_to (tickets : list json) (limit : Z) : list json :=
  if (0 <=? limit)%Z then firstn (Z.to_nat limit) tickets
  else firstn (length tickets - Z.to_nat (- limit)) tickets.

Section Pipeline.

(** The two services, as one deterministic oracle. *)
Variable respond : list action -> request -> response.

(** Constructor arguments of the fetcher and of the creator. *)
Variables project_name tracker_name owner repo : string.

Definition http (rq : request) : IO response :=
  fun log =>
    let rs := respond (history log) rq in
    (Return rs, append log (Requested rq rs)).

(* --------------------------------------------------------------- *)
(** *** SourceForgeTicketsFetcher *)

Definition sf_base_url : string :=
  "https://sourceforge.net/rest/p/" ++ project_name ++ "/" ++ tracker_name.

Definition search_params (status : string) (limit : Z) (page : nat)
  : list (string * json) :=
  let params := [("limit", JInt limit); ("page", JInt (Z.of_nat page))] in
  if negb (String.eqb status "all")
  then extend params [("q", JStr ("status:" ++ status))]
  else params.

(** The [while True] loop of [fetch_tickets]; one unit of fuel per page. *)
Fixpoint fetch_loop (fuel : nat) (status : string) (limit : Z)
         (page : nat) (tickets : list json) : IO (list json) :=
  match fuel with
  | O => fun log => (Spin, log)
  | S fuel' =>
      let url := sf_base_url ++ "/search" in
      let params := search_params status limit page in
      rs <-- http (Get url params) ;;
      match rs with
      | RequestException => ret tickets
      | Body data =>
          ticket_list <-- lift (py_get data "tickets" (JList [])) ;;
          if negb (truthy ticket_list) then ret tickets
          else
            tickets <-- lift (py_extend tickets ticket_list) ;;
            count <-- lift (py_get data "count" (JInt 0)) ;;
            enough <-- lift (len_ge (length tickets) count) ;;
            if enough then ret tickets
            else
              let page := S page in
              sleep 1 ;;;
              fetch_loop fuel' status limit page tickets
      end
  end.

Definition fetch_tickets (fuel : nat) (status : string) (limit : Z)
  : IO (list json) :=
  let tickets := [] in
  let page := 0 in
  fetch_loop fuel status limit page tickets.

(** Returns [JNull] for Python's [None]. *)
Definition fetch_ticket_details (ticket_num : json) : IO json :=
  let url := sf_base_url ++ "/" ++ py_str ticket_num in
  rs <-- http (Get url []) ;;
  match rs with
  | Body data => ret data
  | RequestException => ret JNull
  end.

(* --------------------------------------------------------------- *)
(** *** GitHubIssuesCreator *)

Definition gh_base_url : string :=
  "https://api.github.com/repos/" ++ owner ++ "/" ++ repo.

Definition issues_url : string := gh_base_url ++ "/issues".

Definition comments_url (issue_number : json) : string :=
  gh_base_url ++ "/issues/" ++ py_str issue_number ++ "/comments".

Definition create_issue (title body : string) (labels : list string)
  : IO json :=
  let url := issues_url in
  let data := [("title", JStr title); ("body", JStr body)] in
  let data :=
    match labels with
    | [] => data
    | _ => append data ("labels", JList (map JStr labels))
    end in
  rs <-- http (Post url (JDict data)) ;;
  match rs with
  | Body issue =>
      _ <-- lift (py_getitem issue "number") ;;
      ret issue
  | RequestException => ret JNull
  end.

Definition add_comment (issue_number : json) (comment : string) : IO bool :=
  let url := comments_url issue_number in
  let data := [("body", JStr comment)] in
  rs <-- http (Post url (JDict data)) ;;
  match rs with
  | Body _ => ret true
  | RequestException => ret false
  end.

(* --------------------------------------------------------------- *)
(** *** TicketMigrator.migrate_tickets *)

(** The body of [for comment in comments]. *)
Definition comment_step (issue_number : json) (_ : unit) (comment : string)
  : IO unit :=
  _ <-- add_comment issue_number comment ;;
  sleep 1.

(** The first half of the body of [for i, ticket in enumerate(tickets, 1)]:
    the detail fetch and the conversion. *)
Definition prepare_issue (ticket : json) : IO IssueDraft :=
  ticket_num <-- lift (py_get ticket "ticket_num" (JStr "unknown")) ;;
  detailed_ticket <--
    (if ne_str ticket_num "unknown" then
       detailed_ticket <-- fetch_ticket_details ticket_num ;;
       (if truthy detailed_ticket then sleep 1 else ret tt) ;;;
       ret detailed_ticket
     else ret JNull) ;;
  lift (convert_ticket_to_issue ticket detailed_ticket).

(** The whole body of that loop, threading [success_count]. *)
Definition ticket_step (dry_run : bool) (success_count : nat) (ticket : json)
  : IO nat :=
  issue_data <-- prepare_issue ticket ;;
  if dry_run then ret (success_count + 1)
  else
    issue <-- create_issue (title issue_data) (body issue_data)
                           (labels issue_data) ;;
    if truthy issue then
      issue_number <-- lift (py_get issue "number" JNull) ;;
      let comments := comments issue_data in
      (match comments with
       | [] => ret tt
       | _ => if truthy issue_number
              then io_for comments (comment_step issue_number) tt
              else ret tt
       end) ;;;
      let success_count := success_count + 1 in
      sleep 2 ;;;
      ret success_count
    else ret success_count.

Definition limit_truthy (limit : option Z) : bool :=
  match limit with
  | Some n => negb (Z.eqb n 0)
  | None => false
  end.

(** [if limit: tickets = tickets[:limit]] *)
Definition apply_limit (limit : option Z) (tickets : list json) : list json :=
  match limit with
  | Some n => if limit_truthy limit then slice_to tickets n else tickets
  | None => tickets
  end.

Definition migrate_loop (dry_run : bool) (tickets : list json) : IO nat :=
  let success_count := 0 in
  io_for tickets (ticket_step dry_run) success_count.

Definition migrate_tickets (fuel : nat) (status : string)
           (limit : option Z) (dry_run : bool) : IO nat :=
  tickets <-- fetch_tickets fuel status 100 ;;
  let tickets := apply_limit limit tickets in
  migrate_loop dry_run tickets.

End Pipeline.


(* ================================================================= *)
(** ** The command line: [load_config] and [main] *)

(** What [argparse] hands to [main]: each option is a string or [None],
    [--status] is one of "open", "closed" and "all", [--limit] an integer
    or [None], and the two flags are booleans. *)
Record Namespace : Type := mkArgs {
  arg_config : option string;
  arg_sf_project : option string;
  arg_sf_tracker : option string;
  arg_gh_owner : option string;
  arg_gh_repo : option string;
  arg_gh_token : option string;
  arg_status : string;
  arg_limit : option Z;
  arg_dry_run : bool;
  arg_verbose : bool
}.

(** How the start of [main] can go: on to the next statement, out through
    [sys.exit], or out through an exception nothing catches. *)
Inductive startup (A : Type) : Type :=
| Proceed (a : A)
| SysExit (code : Z)
| Failed (e : exn).

Arguments Proceed {A} a.
Arguments SysExit {A} code.
Arguments Failed {A} e.

Definition startup_bind {A B : Type} (m : startup A) (k : A -> startup B)
  : startup B :=
  match m with
  | Proceed a => k a
  | SysExit c => SysExit c
  | Failed e => Failed e
  end.

Declare Scope startup_scope.
Delimit Scope startup_scope with startup.
Notation "x <== m ;; k" := (startup_bind m (fun x => k))
  (at level 61, m at next level, right associativity) : startup_scope.
Open Scope startup_scope.

Definition of_result {A : Type} (r : result A) : startup A :=
  match r with
  | Ok a => Proceed a
  | Raise e => Failed e
  end.

(** [a or b], where [b] is evaluated only when [a] is falsy. *)
Definition py_or (a : json) (b : startup json) : startup json :=
  if truthy a then Proceed a else b.

(** An attribute of the namespace: the string, or [None]. *)
Definition of_arg (o : option string) : json :=
  match o with
  | Some s => JStr s
  | None => JNull
  end.

(** How the process ends: an exit status, a traceback, or never (a
    pagination loop the fuel could not finish). *)
Inductive ending : Type :=
| Exit (code : Z)
| Uncaught (e : exn)
| Unfinished.

Record Settings : Type := mkSettings {
  sf_project : json;
  sf_tracker : json;
  gh_owner : json;
  gh_repo : json;
  gh_token : json
}.

Section CommandLine.

(** [open] followed by [json.load]: the decoded file, or [None] when either
    raises. *)
Variable read_json : string -> option json.

(** [os.environ.get] *)
Variable environ : string -> option string.

Variable respond : list action -> request -> response.

Definition load_config (config_file : string) : startup json :=
  match read_json config_file with
  | Some config => Proceed config
  | None => SysExit 1
  end.

(** The start of [main], from the configuration file to the check of the
    required parameters. *)
Definition startup_settings (args : Namespace) : startup Settings :=
  let config := JDict [] in
  config <==
    (if truthy (of_arg (arg_config args))
     then load_config (py_str (of_arg (arg_config args)))
     else Proceed config) ;;
  sf_project <==
    py_or (of_arg (arg_sf_project args))
          (of_result (py_get config "sf_project" JNull)) ;;
  sf_tracker <==
    py_or (of_arg (arg_sf_tracker args))
          (of_result (py_get config "sf_tracker" (JStr "bugs"))) ;;
  gh_owner <==
    py_or (of_arg (arg_gh_owner args))
          (of_result (py_get config "gh_owner" JNull)) ;;
  gh_repo <==
    py_or (of_arg (arg_gh_repo args))
          (of_result (py_get config "gh_repo" JNull)) ;;
  gh_token <==
    (first <== py_or (of_arg (arg_gh_token args))
                     (of_result (py_get config "gh_token" JNull)) ;;
     py_or first (Proceed (of_arg (environ "GITHUB_TOKEN")))) ;;
  if negb (truthy sf_project) then SysExit 1
  else if negb (truthy gh_owner) then SysExit 1
  else if negb (truthy gh_repo) then SysExit 1
  else if negb (truthy gh_token) then SysExit 1
  else Proceed (mkSettings sf_project sf_tracker gh_owner gh_repo gh_token).

(** [sys.exit(main())].  The constructors of the fetcher and of the creator
    format their arguments into the two base URLs. *)
Definition main (fuel : nat) (args : Namespace) (log : list event)
  : ending * list event :=
  match startup_settings args with
  | SysExit code => (Exit code, log)
  | Failed e => (Uncaught e, log)
  | Proceed s =>
      match migrate_tickets respond
              (py_str (sf_project s)) (py_str (sf_tracker s))
              (py_str (gh_owner s)) (py_str (gh_repo s))
              fuel (arg_status args) (arg_limit args) (arg_dry_run args) log
      with
      | (Return success_count, log') => (Exit 0, log')
      | (Throw e, log') => (Uncaught e, log')
      | (Spin, log') => (Unfinished, log')
      end
  end.

End CommandLine.
(* ================================================================= *)
(** ** Running examples *)

(** A summary and a detail response. *)
Definition ex_ticket : json :=
  JDict [("ticket_num", JInt 42); ("summary", JStr "Crash on save");
         ("status", JStr "open"); ("reported_by", JStr "alice")].

Definition ex_detail : json :=
  JDict [("ticket", JDict [
    ("description", JStr "It crashes.");
    ("labels", JList [JStr "UI Bug"; JStr ""; JStr "open"; JStr "ui bug"]);
    ("attachments", JList [JDict [("url", JStr "/attachment/photo.PNG?x=1")];
                           JDict [("url", JStr "logs/trace.txt")];
                           JDict []]);
    ("discussion_thread", JDict [("posts", JList [
        JDict [("author", JStr "bob"); ("timestamp", JStr "2020");
               ("text", JStr "me too")];
        JDict [("author", JStr "eve"); ("text", JStr "")]])])])].

Definition mk_ticket (n : Z) : json :=
  JDict [("ticket_num", JInt n); ("summary", JStr "s"); ("status", JStr "open")].

Definition ten_tickets : list json := map mk_ticket [1;2;3;4;5;6;7;8;9;10]%Z.

Definition page_of (rq : request) : Z :=
  match rq with
  | Get _ (_ :: (_, JInt p) :: _) => p
  | _ => 0%Z
  end.

Definition sent_creation (a : action) : bool :=
  match a with
  | Sent (Post _ (JDict (("title", _) :: _))) => true
  | _ => false
  end.

(** A server with ten records in pages of four; every detail request
    answers [ex_detail]; the third issue creation fails, every other one
    gives issue 7; every comment is refused. *)
Definition demo_respond (h : list action) (rq : request) : response :=
  match rq with
  | Get _ (_ :: _) =>
      let p := Z.to_nat (page_of rq) in
      Body (JDict [("tickets", JList (firstn 4 (skipn (4 * p) ten_tickets)));
                   ("count", JInt 10)])
  | Get _ [] => Body ex_detail
  | Post _ (JDict (("title", _) :: _)) =>
      if Nat.eqb (List.length (filter sent_creation h)) 2
      then RequestException
      else Body (JDict [("number", JInt 7)])
  | Post _ _ => RequestException
  end.

(* ================================================================= *)
(** ** Reading the inputs, for the statements *)

(** The value of a field of a record, or [default] when the record has no
    such field (or is no record at all). *)
Definition field (v : json) (key : string) (default : json) : json :=
  match v with
  | JDict kvs => match dict_get kvs key with Some x => x | None => default end
  | _ => default
  end.

(** The detail record inside the detail response, empty when the detail is
    absent. *)
Definition detailed_data_of (detailed_ticket : json) : json :=
  if truthy detailed_ticket then field detailed_ticket "ticket" (JDict [])
  else JDict [].

(** The items of a value, none when it has no items. *)
Definition elements (v : json) : list json :=
  match py_iter v with
  | Ok xs => xs
  | Raise _ => []
  end.

Definition is_dict (v : json) : bool :=
  match v with JDict _ => true | _ => false end.

(** Lowercase, spaces to hyphens. *)
Definition sanitize (s : string) : string := py_replace " " "-" (py_lower s).

Definition status_of (ticket : json) : json := field ticket "status" (JStr "").

Definition source_labels (detailed_ticket : json) : list json :=
  elements (field (detailed_data_of detailed_ticket) "labels" (JList [])).

Definition source_posts (detailed_ticket : json) : list json :=
  elements (field (field (detailed_data_of detailed_ticket)
                         "discussion_thread" (JDict []))
                  "posts" (JList [])).

(** The label list as the specification words it. *)
Definition spec_labels (ticket detailed_ticket : json) : list string :=
  "migrated-from-sourceforge"
  :: List.app
       (if truthy (status_of ticket)
        then ["sf-status-" ++ sanitize (py_str (status_of ticket))]
        else [])
       (map (fun l => sanitize (py_str l))
            (filter truthy (source_labels detailed_ticket))).

Definition has_text (post : json) : bool := truthy (field post "text" (JStr "")).

Definition provenance_line (post : json) : string :=
  "**Comment by " ++ py_str (field post "author" (JStr "unknown"))
    ++ "** *(SourceForge)*".

Definition date_line (post : json) : string :=
  "**Date:** " ++ py_str (field post "timestamp" (JStr "")).

(** The comment synthesised for a post, as the specification words it:
    provenance line, date line, blank line, original text. *)
Definition spec_comment (post : json) : string :=
  provenance_line post ++ nl ++ date_line post ++ nl ++ nl
    ++ py_str (field post "text" (JStr "")).

(** The description the body shows: the detail's, else the summary's. *)
Definition resolved_description (ticket detailed_ticket : json) : json :=
  let d := field (detailed_data_of detailed_ticket) "description" JNull in
  if truthy d then d else field ticket "description" (JStr "").

Definition placeholder : string := "*(No description provided)*".

Definition description_text (ticket detailed_ticket : json) : string :=
  let d := resolved_description ticket detailed_ticket in
  if truthy d then py_str d else placeholder.

Definition ticket_num_of (ticket : json) : json :=
  field ticket "ticket_num" (JStr "").

(** The twelve lines every body starts with. *)
Definition header_lines (ticket detailed_ticket : json) : list string :=
  [ "**Migrated from SourceForge ticket #" ++ py_str (ticket_num_of ticket) ++ "**";
    "";
    "**Original Reporter:** " ++ py_str (field ticket "reported_by" (JStr "unknown"));
    "**Created:** " ++ py_str (field ticket "created_date" (JStr ""));
    "**Last Modified:** " ++ py_str (field ticket "mod_date" (JStr ""));
    "**Status:** " ++ py_str (status_of ticket);
    "";
    "---";
    "";
    "## Description";
    "";
    description_text ticket detailed_ticket ].

Definition source_attachments (detailed_ticket : json) : json :=
  field (detailed_data_of detailed_ticket) "attachments" (JList []).

(** The URL without its query string. *)
Definition before_query (url : string) : string := hd "" (py_split "?" url).

Definition derived_filename (url : string) : string :=
  let name := path_name (before_query url) in
  if String.eqb name "" then "attachment" else name.

Definition source_host : string := "https://sourceforge.net".

Definition absolute_url (url : string) : string :=
  if String.prefix "http://" url || String.prefix "https://" url then url
  else if String.prefix "/" url then source_host ++ url
  else source_host ++ "/" ++ url.

(** Classification by the extension of the lower-cased file name. *)
Definition is_image (filename : string) : bool :=
  existsb (fun ext => py_endswith (py_lower filename) ext) IMAGE_EXTENSIONS.

Definition embedded_image (filename url : string) : string :=
  "![" ++ filename ++ "](" ++ url ++ ")".

Definition linked_file (filename url : string) : string :=
  "- [" ++ filename ++ "](" ++ url ++ ")".

Definition attachment_line (url : string) : string :=
  if is_image (derived_filename url)
  then embedded_image (derived_filename url) (absolute_url url)
  else linked_file (derived_filename url) (absolute_url url).

(** The lines one attachment contributes: one when it has a URL, else none. *)
Definition spec_attachment_lines (att : json) : list string :=
  let url := field att "url" (JStr "") in
  if truthy url then [attachment_line (py_str url)] else [].

Definition attachments_heading : list string :=
  [""; "---"; ""; "## Attachments"; ""].

Definition attachment_section (detailed_ticket : json) : list string :=
  let attachments := source_attachments detailed_ticket in
  if truthy attachments
  then List.app attachments_heading
                (flat_map spec_attachment_lines (elements attachments))
  else [].

(** The items of [body_parts] before the attachments section. *)
Definition header_parts (ticket detailed_ticket : json) : list json :=
  List.app (map JStr (firstn 11 (header_lines ticket detailed_ticket)))
    [ if truthy (resolved_description ticket detailed_ticket)
      then resolved_description ticket detailed_ticket
      else JStr placeholder ].


(** The drafts of the two running examples. *)
Definition empty_draft : IssueDraft := mkDraft "" "" [] [].

Definition ex_draft_summary_only : IssueDraft :=
  Eval vm_compute in
    match convert_ticket_to_issue ex_ticket JNull with
    | Ok d => d
    | Raise _ => empty_draft
    end.

Definition ex_draft_detailed : IssueDraft :=
  Eval vm_compute in
    match convert_ticket_to_issue ex_ticket ex_detail with
    | Ok d => d
    | Raise _ => empty_draft
    end.

(** [s] starts with [p]. *)
Definition starts_with (p s : string) : Prop := exists rest, s = p ++ rest.

(** [s] ends with [suffix]. *)
Definition ends_with (suffix s : string) : Prop := exists front, s = front ++ suffix.

(** A path component that [pathlib] does not count as a segment. *)
Definition blank_segment (s : string) : Prop := s = "" \/ s = ".".

Definition markdown_line (filename full_url : string) : string :=
  if is_image filename then embedded_image filename full_url
  else linked_file filename full_url.

(** [filename] is the last path segment of [url] cut at its first question
    mark, or the fallback name when that path has no segment. *)
Definition last_segment_or_fallback (url filename : string) : Prop :=
  let path := before_query url in
  let segments := py_split "/" path in
  (exists query, url = path ++ query
                 /\ (query = "" \/ exists q, query = String "?" q))
  /\ mem_char "?" path = false
  /\ join "/" segments = path
  /\ ((exists before after,
          segments = List.app before (filename :: after)
          /\ ~ blank_segment filename
          /\ Forall blank_segment after)
      \/ (Forall blank_segment segments /\ filename = "attachment")).

(** [full_url] is [url] made absolute against the source host. *)
Definition resolved_against_host (url full_url : string) : Prop :=
  let absolute := starts_with "http://" url \/ starts_with "https://" url in
  (absolute -> full_url = url)
  /\ (~ absolute -> starts_with "/" url ->
      full_url = "https://sourceforge.net" ++ url)
  /\ (~ absolute -> ~ starts_with "/" url ->
      full_url = "https://sourceforge.net" ++ "/" ++ url).

(** [sub] occurs in [s]. *)
Definition contains (sub s : string) : Prop :=
  exists front back, s = front ++ sub ++ back.

(** A string, or a value that counts as empty. *)
Definition str_or_falsy (v : json) : bool :=
  match v with
  | JStr _ => true
  | _ => negb (truthy v)
  end.

(** [v] can be iterated and each of its items passes [ok]. *)
Definition iterates (ok : json -> bool) (v : json) : bool :=
  match py_iter v with
  | Ok xs => forallb ok xs
  | Raise _ => false
  end.

Definition attachment_ok (att : json) : bool :=
  is_dict att && str_or_falsy (field att "url" (JStr "")).

Definition post_ok (post : json) : bool :=
  is_dict post && str_or_falsy (field post "text" (JStr "")).

(** The inputs the transform accepts: the summary is a record; the detail
    is absent (or empty) or a record whose "ticket" entry, when present, is
    a record; status and description are strings or empty; the attachments
    are empty or a sequence of records whose URL is a string or empty; the
    labels are empty or a sequence; the discussion thread, when present, is
    a record whose posts are a sequence of records whose text is a string
    or empty. *)
Definition convertible (ticket detailed_ticket : json) : bool :=
  let dd := detailed_data_of detailed_ticket in
  let attachments := source_attachments detailed_ticket in
  let sf_labels := field dd "labels" (JList []) in
  let thread := field dd "discussion_thread" (JDict []) in
  is_dict ticket
  && (negb (truthy detailed_ticket) || is_dict detailed_ticket)
  && is_dict dd
  && str_or_falsy (status_of ticket)
  && str_or_falsy (resolved_description ticket detailed_ticket)
  && (negb (truthy attachments) || iterates attachment_ok attachments)
  && (negb (truthy sf_labels) || iterates (fun _ => true) sf_labels)
  && is_dict thread
  && iterates post_ok (field thread "posts" (JList [])).

(** The draft as the specification words it. *)
Definition spec_draft (ticket detailed_ticket : json) : IssueDraft :=
  mkDraft
    ("[SF#" ++ py_str (ticket_num_of ticket) ++ "] "
       ++ py_str (field ticket "summary" (JStr "No summary")))
    (join nl (List.app (header_lines ticket detailed_ticket)
                       (attachment_section detailed_ticket)))
    (spec_labels ticket detailed_ticket)
    (map spec_comment (filter has_text (source_posts detailed_ticket))).

(* ================================================================= *)
(** ** The reader, page by page *)

Section ReaderSpec.

Variable respond : list action -> request -> response.
Variables project_name tracker_name status : string.
Variable limit : Z.

(** The trace a run starts from. *)
Variable log0 : list event.

Definition search_request (page : nat) : request :=
  Get (sf_base_url project_name tracker_name ++ "/search")
      (search_params status limit page).

(** The trace after [n] pages, none of which ended the loop. *)
Fixpoint page_log (n : nat) : list event :=
  match n with
  | O => log0
  | S k =>
      List.app (page_log k)
        [Requested (search_request k)
                   (respond (history (page_log k)) (search_request k));
         Slept 1]
  end.

(** What the server answers for page [k]. *)
Definition page_response (k : nat) : response :=
  respond (history (page_log k)) (search_request k).

Definition page_tickets (rs : response) : json :=
  match rs with
  | Body data => field data "tickets" (JList [])
  | RequestException => JList []
  end.

(** The records of a page; a failed request has none. *)
Definition page_records (rs : response) : list json :=
  elements (page_tickets rs).

(** The total count the server reports with a page. *)
Definition reported_total (rs : response) : Z :=
  match rs with
  | Body data =>
      match field data "count" (JInt 0) with
      | JInt z => z
      | JBool true => 1
      | _ => 0
      end
  | RequestException => 0
  end.

(** The records of the first [n] pages, in fetch order. *)
Fixpoint collected (n : nat) : list json :=
  match n with
  | O => []
  | S k => List.app (collected k) (page_records (page_response k))
  end.

(** The request for page [k] failed. *)
Definition request_failed (k : nat) : bool :=
  match page_response k with
  | RequestException => true
  | Body _ => false
  end.

(** Page [k] was fetched and has zero records. *)
Definition empty_page (k : nat) : bool :=
  match page_response k with
  | RequestException => false
  | Body data => negb (truthy (field data "tickets" (JList [])))
  end.

(** Page [k] was fetched and, with it, the number of records fetched so
    far has reached the total the server reports. *)
Definition total_reached (k : nat) : bool :=
  match page_response k with
  | RequestException => false
  | Body _ =>
      (reported_total (page_response k)
       <=? Z.of_nat (List.length (collected (S k))))%Z
  end.

Definition stops_at (k : nat) : bool :=
  request_failed k || empty_page k || total_reached k.

(** A payload of the expected shape: a record whose "tickets" entry is
    empty or a sequence, and then whose "count" entry is a number. *)
Definition page_ok (k : nat) : bool :=
  match page_response k with
  | RequestException => true
  | Body data =>
      is_dict data
      && (negb (truthy (field data "tickets" (JList [])))
          || (iterates (fun _ => true) (field data "tickets" (JList []))
              && match field data "count" (JInt 0) with
                 | JInt _ | JBool _ => true
                 | _ => false
                 end))
  end.

End ReaderSpec.

(** A server that refuses every request. *)
Definition failing_respond (h : list action) (rq : request) : response :=
  RequestException.

(* ================================================================= *)
(** ** The orchestrator: what a trace shows *)

(** A request to the destination: issue creation or comment. *)
Definition is_write (e : event) : bool :=
  match e with
  | Requested (Post _ _) _ => true
  | _ => false
  end.

(** The request [add_comment] sends. *)
Definition is_add_comment (rq : request) : bool :=
  match rq with
  | Post _ (JDict [("body", JStr _)]) => true
  | _ => false
  end.

(** The request [create_issue] sends. *)
Definition is_create_issue (owner repo : string) (rq : request) : bool :=
  match rq with
  | Post url (JDict (("title", JStr _) :: ("body", JStr _) :: _)) =>
      String.eqb url (issues_url owner repo)
  | _ => false
  end.

Definition create_succeeded (owner repo : string) (e : event) : bool :=
  match e with
  | Requested rq (Body _) => is_create_issue owner repo rq
  | _ => false
  end.

Definition create_failed (owner repo : string) (e : event) : bool :=
  match e with
  | Requested rq RequestException => is_create_issue owner repo rq
  | _ => false
  end.

Definition count_of (p : event -> bool) (log : list event) : nat :=
  List.length (filter p log).

(** The request [create_issue] sends for a draft. *)
Definition create_request (owner repo : string) (draft : IssueDraft) : request :=
  Post (issues_url owner repo)
       (JDict (List.app
                 [("title", JStr (title draft)); ("body", JStr (body draft))]
                 (match labels draft with
                  | [] => []
                  | _ => [("labels", JList (map JStr (labels draft)))]
                  end))).


(** The new events of a computation all satisfy [P]. *)
Definition emits {A : Type} (P : event -> Prop) (m : IO A) : Prop :=
  forall log, exists new, snd (m log) = List.app log new /\ Forall P new.

(** Two computations that cannot be told apart by their result and by the
    actions the services see. *)
Definition same_run {A : Type} (m m' : IO A) : Prop :=
  forall log log',
    history log = history log' ->
    fst (m log) = fst (m' log')
    /\ history (snd (m log)) = history (snd (m' log')).

(** The demonstration server, except that it accepts every comment. *)
Definition demo_respond_comments_ok (h : list action) (rq : request) : response :=
  if is_add_comment rq then Body JNull else demo_respond h rq.

Definition five_tickets : list json := firstn 5 ten_tickets.

(* ================================================================= *)
(** ** Further notions for the statements *)

(** What the reader may put on the trace: a pause of one second, or a
    search request for some page. *)
Definition reader_event (project_name tracker_name status : string)
           (limit : Z) (e : event) : Prop :=
  e = Slept 1
  \/ exists page rs,
      e = Requested (search_request project_name tracker_name status limit page)
                    rs.

(** The request [fetch_ticket_details] sends. *)
Definition detail_request (project_name tracker_name : string)
           (ticket_num : json) : request :=
  Get (sf_base_url project_name tracker_name ++ "/" ++ py_str ticket_num) [].

(** The request [add_comment] sends. *)
Definition comment_request (owner repo : string) (issue_number : json)
           (comment : string) : request :=
  Post (comments_url owner repo issue_number) (JDict [("body", JStr comment)]).

(** The trace after the comments of a draft were sent, in order, each
    followed by its pause. *)
Fixpoint comment_events (respond : list action -> request -> response)
         (owner repo : string) (issue_number : json)
         (comments : list string) (log : list event) : list event :=
  match comments with
  | [] => log
  | c :: cs =>
      let rq := comment_request owner repo issue_number c in
      comment_events respond owner repo issue_number cs
        (List.app log [Requested rq (respond (history log) rq); Slept 1])
  end.

(** The configuration [main] works with: the decoded file when [--config]
    names one (nothing when it cannot be read), else the empty object. *)
Definition loaded_config (read_json : string -> option json)
           (args : Namespace) : option json :=
  match arg_config args with
  | Some file => if String.eqb file "" then Some (JDict []) else read_json file
  | None => Some (JDict [])
  end.

(** A setting as [main] resolves it: the command line when it gives a
    non-empty value, else the configuration, else [default]. *)
Definition setting (arg : option string) (config : json) (key : string)
           (default : json) : json :=
  if truthy (of_arg arg) then of_arg arg else field config key default.

(** The access token: command line, else configuration, else environment. *)
Definition token_setting (environ : string -> option string)
           (args : Namespace) (config : json) : json :=
  let first := setting (arg_gh_token args) config "gh_token" JNull in
  if truthy first then first else of_arg (environ "GITHUB_TOKEN").

(** Project, owner, repository and token are all given somewhere. *)
Definition required_given (environ : string -> option string)
           (args : Namespace) (config : json) : bool :=
  truthy (setting (arg_sf_project args) config "sf_project" JNull)
  && truthy (setting (arg_gh_owner args) config "gh_owner" JNull)
  && truthy (setting (arg_gh_repo args) config "gh_repo" JNull)
  && truthy (token_setting environ args config).

(** The end of the process after a migration run. *)
Definition ending_of (run : outcome nat * list event) : ending * list event :=
  match run with
  | (Return _, log) => (Exit 0, log)
  | (Throw e, log) => (Uncaught e, log)
  | (Spin, log) => (Unfinished, log)
  end.

(** A command line that names everything. *)
Definition full_args : Namespace :=
  mkArgs None (Some "p") (Some "bugs") (Some "o") (Some "r") (Some "secret")
         "open" (Some 3%Z) true false.

(** A command line that leaves everything to the configuration file. *)
Definition config_args : Namespace :=
  mkArgs (Some "config.json") None None None None None "open" None true false.

Definition no_environ (name : string) : option string := None.

Definition no_files (file : string) : option json := None.



(* ================================================================= *)
(** ** Basic facts *)

Lemma bind_Ok {A B : Type} (m : result A) (k : A -> result B) (b : B) :
  bind m k = Ok b -> exists a, m = Ok a /\ k a = Ok b.
Proof.
  destruct m as [a|e]; simpl; intros H; [eauto | discriminate].
Qed.

Ltac bind_inv H :=
  let x := fresh "x" in
  let E := fresh "E" in
  apply bind_Ok in H; destruct H as (x & E & H).

Lemma py_get_Ok (v : json) (key : string) (default x : json) :
  py_get v key default = Ok x ->
  is_dict v = true /\ x = field v key default.
Proof.
  destruct v; simpl; try discriminate.
  intros H; injection H as <-; auto.
Qed.

Lemma py_get_dict (v : json) (key : string) (default : json) :
  is_dict v = true -> py_get v key default = Ok (field v key default).
Proof.
  destruct v; simpl; try discriminate; reflexivity.
Qed.

Ltac get_inv H :=
  let D := fresh "D" in
  apply py_get_Ok in H; destruct H as (D & H).

Lemma py_for_Ok {S : Type} (v : json) (s r : S) (body : S -> json -> result S) :
  py_for v s body = Ok r ->
  exists xs, py_iter v = Ok xs /\ for_each xs body s = Ok r.
Proof.
  unfold py_for; intros H; bind_inv H; eauto.
Qed.

Lemma elements_iter (v : json) (xs : list json) :
  py_iter v = Ok xs -> elements v = xs.
Proof.
  unfold elements; intros ->; reflexivity.
Qed.

Lemma elements_falsy (v : json) : truthy v = false -> elements v = [].
Proof.
  destruct v as [ |b|z|s|l|kvs]; simpl; try reflexivity.
  - destruct s; [reflexivity | discriminate].
  - destruct l; [reflexivity | discriminate].
  - destruct kvs; [reflexivity | discriminate].
Qed.

(* ================================================================= *)
(** ** The loops of the transformer *)

Lemma label_loop (xs : list json) (acc : list string) :
  for_each xs label_step acc
  = Ok (List.app acc (map (fun l => sanitize (py_str l)) (filter truthy xs))).
Proof.
  revert acc; induction xs as [|x xs IH]; intros acc; simpl.
  - now rewrite app_nil_r.
  - unfold label_step at 1.
    destruct (truthy x); simpl; rewrite IH; [|reflexivity].
    unfold append; now rewrite <- app_assoc.
Qed.

Lemma post_step_Ok (acc r : list string) (post : json) :
  post_step acc post = Ok r ->
  r = List.app acc (if has_text post then [spec_comment post] else []).
Proof.
  unfold post_step; intros H.
  bind_inv H; get_inv E; subst x.
  bind_inv H; get_inv E; subst x.
  bind_inv H; get_inv E; subst x.
  unfold has_text.
  destruct (truthy (field post "text" (JStr ""))) eqn:T.
  - bind_inv H. injection H as <-.
    unfold py_join in E. bind_inv E. injection E as <-.
    simpl in E0.
    destruct (field post "text" (JStr "")) eqn:F; try discriminate.
    injection E0 as <-.
    unfold append, spec_comment, provenance_line, date_line; rewrite F.
    reflexivity.
  - injection H as <-; now rewrite app_nil_r.
Qed.

Lemma post_loop (xs : list json) (acc r : list string) :
  for_each xs post_step acc = Ok r ->
  r = List.app acc (map spec_comment (filter has_text xs)).
Proof.
  revert acc; induction xs as [|x xs IH]; intros acc; simpl; intros H.
  - injection H as <-; now rewrite app_nil_r.
  - bind_inv H. apply post_step_Ok in E. apply IH in H. subst.
    rewrite <- app_assoc. destruct (has_text x); reflexivity.
Qed.

Lemma attachment_step_url (acc : list json) (att : json) (u : string) :
  py_get att "url" (JStr "") = Ok (JStr u) -> u <> "" ->
  attachment_step acc att = Ok (append acc (JStr (attachment_line u))).
Proof.
  intros G U. unfold attachment_step. rewrite G. cbn [bind truthy].
  apply String.eqb_neq in U. rewrite U.
  cbn [negb str_split str_startswith bind try_except py_str].
  unfold attachment_line, is_image, embedded_image, linked_file,
    derived_filename, absolute_url, before_query, source_host, py_startswith.
  destruct (String.eqb (path_name (hd "" (py_split "?" u))) "");
    cbn [negb];
    destruct (String.prefix "http://" u); cbn [orb bind];
    try (destruct (String.prefix "https://" u); cbn [bind]);
    try (destruct (String.prefix "/" u); cbn [bind]);
    match goal with
    | |- context [existsb ?f ?l] => destruct (existsb f l)
    end; reflexivity.
Qed.

Lemma attachment_step_Ok (acc r : list json) (att : json) :
  attachment_step acc att = Ok r ->
  r = List.app acc (map JStr (spec_attachment_lines att)).
Proof.
  intros H. unfold spec_attachment_lines.
  destruct (py_get att "url" (JStr "")) as [url|e] eqn:G.
  2:{ unfold attachment_step in H; rewrite G in H; discriminate. }
  pose proof G as G'. get_inv G'. rewrite <- G'.
  destruct (truthy url) eqn:T.
  - destruct url as [ |b|z|u|l|kvs];
      try (unfold attachment_step in H; rewrite G in H; cbn [bind] in H;
           rewrite T in H; discriminate).
    assert (U : u <> "").
    { simpl in T. intros ->. discriminate. }
    rewrite (attachment_step_url acc att u G U) in H.
    injection H as <-; reflexivity.
  - unfold attachment_step in H; rewrite G in H; cbn [bind] in H.
    rewrite T in H. injection H as <-; simpl; now rewrite app_nil_r.
Qed.

Lemma attachment_loop (xs : list json) (acc r : list json) :
  for_each xs attachment_step acc = Ok r ->
  r = List.app acc (map JStr (flat_map spec_attachment_lines xs)).
Proof.
  revert acc; induction xs as [|x xs IH]; intros acc; simpl; intros H.
  - injection H as <-; now rewrite app_nil_r.
  - bind_inv H. apply attachment_step_Ok in E. apply IH in H. subst.
    now rewrite map_app, app_assoc.
Qed.

Lemma strings_of_map (ss : list string) : strings_of (map JStr ss) = Ok ss.
Proof.
  induction ss as [|s ss IH]; simpl; [reflexivity | now rewrite IH].
Qed.

Lemma strings_of_app (xs ys : list json) (r : list string) :
  strings_of (List.app xs ys) = Ok r ->
  exists a b, strings_of xs = Ok a /\ strings_of ys = Ok b /\ r = List.app a b.
Proof.
  revert r; induction xs as [|x xs IH]; intros r; simpl.
  - intros H; exists [], r; auto.
  - destruct x; try discriminate.
    intros H; bind_inv H. injection H as <-.
    destruct (IH _ E) as (a & b & -> & Hb & ->).
    exists (s :: a), b; auto.
Qed.

(* ================================================================= *)
(** ** What a successful conversion tells *)

Lemma convert_inv (ticket detailed_ticket : json) (draft : IssueDraft) :
  convert_ticket_to_issue ticket detailed_ticket = Ok draft ->
  let dd := detailed_data_of detailed_ticket in
  let attachments := source_attachments detailed_ticket in
  let sf_labels := field dd "labels" (JList []) in
  let thread := field dd "discussion_thread" (JDict []) in
  is_dict ticket = true /\ is_dict dd = true /\ is_dict thread = true
  /\ negb (truthy detailed_ticket) || is_dict detailed_ticket = true
  /\ title draft
     = "[SF#" ++ py_str (ticket_num_of ticket) ++ "] "
         ++ py_str (field ticket "summary" (JStr "No summary"))
  /\ (exists body_parts,
        (if truthy attachments
         then py_for attachments
                (extend (header_parts ticket detailed_ticket)
                        (map JStr attachments_heading))
                attachment_step
         else Ok (header_parts ticket detailed_ticket)) = Ok body_parts
        /\ py_join nl body_parts = Ok (body draft))
  /\ (exists labels1,
        (if truthy (status_of ticket)
         then lowered <- str_lower (status_of ticket) ;;
              Ok (append ["migrated-from-sourceforge"]
                         ("sf-status-" ++ py_replace " " "-" lowered))
         else Ok ["migrated-from-sourceforge"]) = Ok labels1
        /\ (if truthy sf_labels then py_for sf_labels labels1 label_step
            else Ok labels1) = Ok (labels draft))
  /\ py_for (field thread "posts" (JList [])) [] post_step
     = Ok (comments draft).
Proof.
  unfold convert_ticket_to_issue; intros H.
  bind_inv H.
  assert (x = detailed_data_of detailed_ticket
          /\ negb (truthy detailed_ticket) || is_dict detailed_ticket = true)
    as (-> & Dd).
  { unfold detailed_data_of. destruct (truthy detailed_ticket).
    - get_inv E. auto.
    - injection E as <-. auto. }
  clear E.
  bind_inv H; get_inv E; subst x.
  bind_inv H; get_inv E; subst x.
  bind_inv H; get_inv E; subst x.
  bind_inv H; get_inv E; subst x.
  bind_inv H; get_inv E; subst x.
  bind_inv H; get_inv E; subst x.
  bind_inv H; get_inv E; subst x. rename D5 into DD.
  bind_inv H.
  assert (x = resolved_description ticket detailed_ticket) as ->.
  { unfold resolved_description.
    destruct (truthy (field (detailed_data_of detailed_ticket) "description" JNull)).
    - now injection E as <-.
    - get_inv E. assumption. }
  clear E.
  bind_inv H; get_inv E; subst x.
  bind_inv H. rename x into body_parts, E into Hparts.
  bind_inv H. rename x into body0, E into Hjoin.
  bind_inv H. rename x into labels1, E into Hstatus.
  bind_inv H; get_inv E; subst x.
  bind_inv H. rename x into labels2, E into Hlabels.
  bind_inv H; get_inv E; subst x.
  bind_inv H; get_inv E; subst x.
  bind_inv H. rename x into comments0, E into Hposts.
  injection H as <-. cbn [title body labels comments].
  repeat split; auto.
  - exists body_parts; split; [exact Hparts | exact Hjoin].
  - exists labels1; split; [exact Hstatus | exact Hlabels].
Qed.

Lemma truthy_iterated (v : json) (s r : list string)
      (body : list string -> json -> result (list string)) :
  (if truthy v then py_for v s body else Ok s) = Ok r ->
  for_each (elements v) body s = Ok r.
Proof.
  destruct (truthy v) eqn:T; intros H.
  - apply py_for_Ok in H. destruct H as (xs & I & H).
    now rewrite (elements_iter _ _ I).
  - rewrite (elements_falsy _ T). exact H.
Qed.

Lemma status_labels (status : json) (labels1 : list string) :
  (if truthy status
   then lowered <- str_lower status ;;
        Ok (append ["migrated-from-sourceforge"]
                   ("sf-status-" ++ py_replace " " "-" lowered))
   else Ok ["migrated-from-sourceforge"]) = Ok labels1 ->
  labels1 = "migrated-from-sourceforge"
            :: (if truthy status
                then ["sf-status-" ++ sanitize (py_str status)] else [])
  /\ (truthy status = true -> exists s, status = JStr s /\ s <> "").
Proof.
  destruct (truthy status) eqn:T; intros H.
  - bind_inv H. injection H as <-.
    destruct status; try discriminate.
    injection E as <-. split; [reflexivity|].
    intros _. eexists; split; [reflexivity|].
    intros ->; discriminate.
  - injection H as <-; split; [reflexivity | discriminate].
Qed.

Lemma header_strings (ticket detailed_ticket : json) (hs : list string) :
  strings_of (header_parts ticket detailed_ticket) = Ok hs ->
  hs = header_lines ticket detailed_ticket.
Proof.
  unfold header_parts; intros H.
  apply strings_of_app in H. destruct H as (a & b & Ha & Hb & ->).
  rewrite strings_of_map in Ha. injection Ha as <-.
  unfold header_lines, description_text. cbn [firstn List.app].
  destruct (truthy (resolved_description ticket detailed_ticket)).
  - destruct (resolved_description ticket detailed_ticket);
      try discriminate.
    injection Hb as <-. reflexivity.
  - injection Hb as <-. reflexivity.
Qed.

(* ================================================================= *)
(** ** Strings: prefixes, suffixes and splitting *)

Lemma prefix_starts_with (p s : string) :
  String.prefix p s = true <-> starts_with p s.
Proof.
  unfold starts_with. revert s; induction p as [|a p IH]; intros s.
  - split; [intros _; now exists s | intros _; now destruct s].
  - destruct s as [|b s]; simpl.
    + split; [discriminate | intros (rest & H); discriminate].
    + destruct (ascii_dec a b) as [->|N].
      * rewrite IH. split; intros (rest & H); exists rest.
        -- now rewrite H.
        -- now injection H.
      * split; [discriminate|].
        intros (rest & H). injection H as H _. now symmetry in H.
Qed.

Lemma endswith_ends_with (s suffix : string) :
  py_endswith s suffix = true <-> ends_with suffix s.
Proof.
  unfold ends_with. induction s as [|c s IH]; cbn [py_endswith].
  - rewrite orb_false_r. split.
    + intros H. apply String.eqb_eq in H. subst. now exists "".
    + intros ([|? ?] & H); simpl in H; [|discriminate].
      subst. reflexivity.
  - rewrite orb_true_iff, IH. split.
    + intros [H | (front & ->)].
      * apply String.eqb_eq in H. exists "". now rewrite <- H.
      * now exists (String c front).
    + intros ([|d front] & H); simpl in H.
      * left. rewrite <- H. apply String.eqb_refl.
      * right. injection H as _ ->. now exists front.
Qed.

Lemma split_nonempty (sep : ascii) (s : string) :
  exists x xs, py_split sep s = x :: xs.
Proof.
  induction s as [|c s (x & xs & IH)]; simpl; [eauto|].
  destruct (Ascii.eqb c sep); [eauto|]. rewrite IH. eauto.
Qed.

Lemma join_cons (sep x y : string) (ys : list string) :
  join sep (x :: y :: ys) = x ++ sep ++ join sep (y :: ys).
Proof. reflexivity. Qed.

Lemma split_join (sep : ascii) (s : string) :
  join (String sep "") (py_split sep s) = s.
Proof.
  induction s as [|c s IH]; [reflexivity|]. cbn [py_split].
  destruct (split_nonempty sep s) as (x & xs & E). rewrite E in IH |- *.
  destruct (Ascii.eqb c sep) eqn:C.
  - apply Ascii.eqb_eq in C. subst c.
    rewrite join_cons, IH. reflexivity.
  - destruct xs as [|y ys].
    + unfold join in *. simpl in IH |- *. now rewrite IH.
    + rewrite join_cons in IH. rewrite join_cons, <- IH. reflexivity.
Qed.

Lemma split_free (sep : ascii) (s : string) :
  Forall (fun x => mem_char sep x = false) (py_split sep s).
Proof.
  induction s as [|c s IH]; simpl.
  - constructor; [reflexivity | constructor].
  - destruct (Ascii.eqb c sep) eqn:C.
    + constructor; [reflexivity | exact IH].
    + destruct (py_split sep s) as [|x xs].
      * constructor; [|constructor]. simpl.
        rewrite Ascii.eqb_sym, C. reflexivity.
      * inversion IH as [|? ? Hx Hxs]; subst.
        constructor; [|exact Hxs]. simpl.
        rewrite Ascii.eqb_sym, C. exact Hx.
Qed.

(** The part of a URL before its first question mark. *)
Lemma before_query_spec (url : string) :
  (exists query, url = before_query url ++ query
                 /\ (query = "" \/ exists q, query = String "?" q))
  /\ mem_char "?" (before_query url) = false.
Proof.
  unfold before_query.
  pose proof (split_join "?" url) as J.
  pose proof (split_free "?" url) as F.
  destruct (split_nonempty "?" url) as (x & xs & E).
  rewrite E in J, F |- *. simpl hd.
  apply Forall_inv in F. split; [|exact F].
  destruct xs as [|y ys].
  - exists "". simpl in J. split; [|now left].
    rewrite <- J at 1. clear. induction x; simpl; congruence.
  - rewrite join_cons in J. eexists; split; [symmetry; exact J|].
    right. simpl. eauto.
Qed.

(** The last element that passes a filter, when there is one. *)
Lemma last_filter {A : Type} (p : A -> bool) (l : list A) (d : A) :
  (filter p l = [] /\ Forall (fun x => p x = false) l)
  \/ (exists before after,
        l = List.app before (last (filter p l) d :: after)
        /\ p (last (filter p l) d) = true
        /\ Forall (fun x => p x = false) after).
Proof.
  induction l as [|a l IH]; simpl.
  - left; split; constructor.
  - destruct IH as [(E & F) | (before & after & E & P & F)].
    + rewrite E. destruct (p a) eqn:Pa.
      * right. exists [], l. simpl. auto.
      * left. split; [reflexivity | constructor; assumption].
    + right. exists (a :: before), after.
      assert (L : last (if p a then a :: filter p l else filter p l) d
                  = last (filter p l) d).
      { destruct (p a); [|reflexivity].
        destruct (filter p l) eqn:Fl; [|reflexivity].
        simpl in P. rewrite E in Fl.
        rewrite filter_app in Fl. simpl in Fl.
        simpl in E. destruct (p d) eqn:Pd.
        - destruct (filter p before); discriminate.
        - discriminate. }
      rewrite L. split; [|split; assumption].
      simpl. f_equal. exact E.
Qed.

Lemma blank_segment_iff (s : string) :
  negb (String.eqb s "") && negb (String.eqb s ".") = false
  <-> blank_segment s.
Proof.
  unfold blank_segment.
  destruct (String.eqb s "") eqn:A; [apply String.eqb_eq in A|
                                    apply String.eqb_neq in A];
    destruct (String.eqb s ".") eqn:B; [apply String.eqb_eq in B| 
                                       apply String.eqb_neq in B| 
                                       apply String.eqb_eq in B| 
                                       apply String.eqb_neq in B];
    simpl; split; auto; try discriminate.
  intros [H|H]; contradiction.
Qed.

(** The derived file name is the last segment of the path, or the
    fallback when the path has no segment. *)
Lemma derived_filename_spec (url : string) :
  let segments := py_split "/" (before_query url) in
  let filename := derived_filename url in
  (exists before after,
      segments = List.app before (filename :: after)
      /\ ~ blank_segment filename
      /\ Forall blank_segment after)
  \/ (Forall blank_segment segments /\ filename = "attachment").
Proof.
  intros segments filename. unfold filename, derived_filename, path_name, path_tail.
  fold segments.
  set (p := fun x => negb (String.eqb x "") && negb (String.eqb x ".")).
  destruct (last_filter p segments "") as [(E & F) | (before & after & E & P & F)].
  - right. rewrite E. simpl. split; [|reflexivity].
    eapply Forall_impl; [|exact F]. intros s. apply blank_segment_iff.
  - left.
    assert (N : ~ blank_segment (last (filter p segments) "")).
    { intros B. apply blank_segment_iff in B. fold (p (last (filter p segments) "")) in B.
      congruence. }
    assert (Z : String.eqb (last (filter p segments) "") "" = false).
    { apply String.eqb_neq. intros Z. apply N. now left. }
    rewrite Z. exists before, after. split; [exact E|]. split; [exact N|].
    eapply Forall_impl; [|exact F]. intros s. apply blank_segment_iff.
Qed.

(** The first element of a list that fails [P] is determined by the list. *)
Lemma first_failing_unique {A : Type} (P : A -> Prop)
      (x x' y y' : list A) (f f' : A) :
  List.app x (f :: y) = List.app x' (f' :: y') ->
  Forall P x -> Forall P x' -> ~ P f -> ~ P f' -> f = f'.
Proof.
  revert x'. induction x as [|a x IH]; intros x' E Fx Fx' N N'.
  - destruct x' as [|a' x']; simpl in E.
    + now injection E.
    + injection E as -> _. inversion Fx'; contradiction.
  - destruct x' as [|a' x']; simpl in E.
    + injection E as <- _. inversion Fx; contradiction.
    + injection E as _ E. inversion Fx; inversion Fx'; subst. eauto.
Qed.

Lemma last_failing_unique {A : Type} (P : A -> Prop)
      (x x' y y' : list A) (f f' : A) :
  List.app x (f :: y) = List.app x' (f' :: y') ->
  Forall P y -> Forall P y' -> ~ P f -> ~ P f' -> f = f'.
Proof.
  intros E Fy Fy' N N'.
  apply (f_equal (@rev A)) in E.
  rewrite !rev_app_distr in E. simpl in E. rewrite <- !app_assoc in E.
  simpl in E.
  eapply first_failing_unique; eauto using Forall_rev.
Qed.

(** The last segment, or the fallback, is determined by the URL. *)
Lemma last_segment_unique (url f f' : string) :
  last_segment_or_fallback url f -> last_segment_or_fallback url f' -> f = f'.
Proof.
  intros (_ & _ & _ & H) (_ & _ & _ & H').
  destruct H as [(b & a & E & N & F) | (F & ->)];
    destruct H' as [(b' & a' & E' & N' & F') | (F' & ->)].
  - rewrite E in E'. eapply last_failing_unique; eauto.
  - rewrite E in F'. apply Forall_app in F'. destruct F' as (_ & F').
    inversion F'; contradiction.
  - rewrite E' in F. apply Forall_app in F. destruct F as (_ & F).
    inversion F; contradiction.
  - reflexivity.
Qed.

(* ================================================================= *)
(** ** The transformer: labels, comments, attachments *)

(** The summary-only scenario: title, labels, and no comment. *)
Example summary_only_scenario :
  convert_ticket_to_issue ex_ticket JNull = Ok ex_draft_summary_only
  /\ title ex_draft_summary_only = "[SF#42] Crash on save"
  /\ labels ex_draft_summary_only
     = ["migrated-from-sourceforge"; "sf-status-open"]
  /\ comments ex_draft_summary_only = [].
Proof. repeat split. Qed.

(** C1. Whenever the transform yields a draft, its label list is the
    migration marker "migrated-from-sourceforge" at index 0, then, exactly
    when the summary's status is non-empty, "sf-status-" followed by the
    sanitised status (a non-empty status of a converted record is a
    string), then every non-empty source label of the detail in its
    original order, sanitised (lowercased, spaces to hyphens), with nothing
    removed as a duplicate. *)
Theorem labels_marker_status_then_sources
        (ticket detailed_ticket : json) (draft : IssueDraft) :
  convert_ticket_to_issue ticket detailed_ticket = Ok draft ->
  nth_error (labels draft) 0 = Some "migrated-from-sourceforge"
  /\ labels draft
     = "migrated-from-sourceforge"
       :: List.app
            (if truthy (status_of ticket)
             then ["sf-status-" ++ sanitize (py_str (status_of ticket))]
             else [])
            (map (fun l => sanitize (py_str l))
                 (filter truthy (source_labels detailed_ticket)))
  /\ (truthy (status_of ticket) = true ->
      exists s, status_of ticket = JStr s /\ s <> "").
Proof.
  intros H. apply convert_inv in H.
  destruct H as (_ & _ & _ & _ & _ & _ & (labels1 & Hs & Hl) & _).
  apply status_labels in Hs. destruct Hs as (-> & Hstr).
  apply truthy_iterated in Hl. rewrite label_loop in Hl.
  injection Hl as <-.
  split; [reflexivity | split; [reflexivity | exact Hstr]].
Qed.

Lemma labels_marker_status_then_sources_witness :
  convert_ticket_to_issue ex_ticket ex_detail = Ok ex_draft_detailed
  /\ labels ex_draft_detailed
     = ["migrated-from-sourceforge"; "sf-status-open"; "ui-bug"; "open";
        "ui-bug"].
Proof.
  split; [reflexivity|].
  exact (proj1 (proj2 (labels_marker_status_then_sources
                         ex_ticket ex_detail ex_draft_detailed eq_refl))).
Defined.

(** C4. Whenever the transform yields a draft, its comment list has one
    entry per post of the discussion thread whose text is non-empty, in
    the order of the posts; each entry is the provenance line (author and
    the "(SourceForge)" marker), the date line, a blank line and the text
    of the post; posts with empty text give no entry. *)
Theorem comments_follow_posts
        (ticket detailed_ticket : json) (draft : IssueDraft) :
  convert_ticket_to_issue ticket detailed_ticket = Ok draft ->
  comments draft
  = map spec_comment (filter has_text (source_posts detailed_ticket))
  /\ List.length (comments draft)
     = List.length (filter has_text (source_posts detailed_ticket)).
Proof.
  intros H. apply convert_inv in H.
  destruct H as (_ & _ & _ & _ & _ & _ & _ & Hp).
  apply py_for_Ok in Hp. destruct Hp as (xs & I & Hp).
  apply post_loop in Hp. simpl in Hp.
  unfold source_posts. rewrite (elements_iter _ _ I).
  rewrite Hp. split; [reflexivity | apply length_map].
Qed.

Lemma comments_follow_posts_witness :
  convert_ticket_to_issue ex_ticket ex_detail = Ok ex_draft_detailed
  /\ comments ex_draft_detailed
     = ["**Comment by bob** *(SourceForge)*" ++ nl ++ "**Date:** 2020" ++ nl
          ++ nl ++ "me too"].
Proof.
  split; [reflexivity|].
  exact (proj1 (comments_follow_posts ex_ticket ex_detail ex_draft_detailed
                                      eq_refl)).
Defined.

(** C2. Whenever the transform yields a draft, its body is the twelve
    header lines followed by the attachments section; in that section an
    attachment with a non-empty URL gives exactly one line, an embedded
    image when the lower-cased derived file name ends with one of .png,
    .jpg, .jpeg, .gif, .bmp, .svg, .webp and a linked-file bullet with the
    derived file name as link text otherwise, and an attachment whose URL
    is empty or absent gives no line. *)
Theorem attachments_embedded_or_linked
        (ticket detailed_ticket : json) (draft : IssueDraft) :
  convert_ticket_to_issue ticket detailed_ticket = Ok draft ->
  let attachments := source_attachments detailed_ticket in
  let lines_of (att : json) : list string :=
    let url := field att "url" (JStr "") in
    if truthy url then
      let filename := derived_filename (py_str url) in
      if existsb (fun ext => py_endswith (py_lower filename) ext)
                 [".png"; ".jpg"; ".jpeg"; ".gif"; ".bmp"; ".svg"; ".webp"]
      then ["![" ++ filename ++ "](" ++ absolute_url (py_str url) ++ ")"]
      else ["- [" ++ filename ++ "](" ++ absolute_url (py_str url) ++ ")"]
    else [] in
  body draft
  = join nl
      (List.app (header_lines ticket detailed_ticket)
         (if truthy attachments
          then List.app [""; "---"; ""; "## Attachments"; ""]
                        (flat_map lines_of (elements attachments))
          else []))
  /\ forall filename,
       existsb (fun ext => py_endswith (py_lower filename) ext)
               [".png"; ".jpg"; ".jpeg"; ".gif"; ".bmp"; ".svg"; ".webp"]
       = true
       <-> exists ext,
           In ext [".png"; ".jpg"; ".jpeg"; ".gif"; ".bmp"; ".svg"; ".webp"]
           /\ ends_with ext (py_lower filename).
Proof.
  intros H attachments lines_of. split.
  2:{ intros filename. rewrite existsb_exists.
      split; intros (ext & I & E); exists ext; (split; [exact I|]);
        now apply endswith_ends_with. }
  apply convert_inv in H.
  destruct H as (_ & _ & _ & _ & _ & (body_parts & Hparts & Hjoin) & _).
  fold attachments in Hparts.
  assert (L : forall xs, flat_map lines_of xs
                         = flat_map spec_attachment_lines xs).
  { intros xs. apply flat_map_ext. intros att.
    unfold lines_of, spec_attachment_lines, attachment_line, is_image,
      embedded_image, linked_file, IMAGE_EXTENSIONS.
    destruct (truthy (field att "url" (JStr ""))); [|reflexivity].
    match goal with |- context [existsb ?f ?l] => destruct (existsb f l) end;
      reflexivity. }
  rewrite L. clear L lines_of.
  unfold py_join in Hjoin. bind_inv Hjoin. injection Hjoin as <-.
  f_equal.
  destruct (truthy attachments).
  - apply py_for_Ok in Hparts. destruct Hparts as (xs & I & Hparts).
    apply attachment_loop in Hparts. rewrite (elements_iter _ _ I).
    subst body_parts. unfold extend in E.
    apply strings_of_app in E. destruct E as (a & b & Ha & Hb & ->).
    apply strings_of_app in Ha. destruct Ha as (h & c & Hh & Hc & ->).
    apply header_strings in Hh. subst h.
    rewrite strings_of_map in Hc, Hb.
    injection Hc as <-. injection Hb as <-.
    now rewrite <- app_assoc.
  - injection Hparts as <-. apply header_strings in E. subst x.
    now rewrite app_nil_r.
Qed.

Lemma attachments_embedded_or_linked_witness :
  convert_ticket_to_issue ex_ticket ex_detail = Ok ex_draft_detailed
  /\ body ex_draft_detailed
     = join nl
         (List.app (header_lines ex_ticket ex_detail)
            [""; "---"; ""; "## Attachments"; "";
             "![photo.PNG](https://sourceforge.net/attachment/photo.PNG?x=1)";
             "- [trace.txt](https://sourceforge.net/logs/trace.txt)"]).
Proof.
  split; [reflexivity|].
  exact (proj1 (attachments_embedded_or_linked
                  ex_ticket ex_detail ex_draft_detailed eq_refl)).
Defined.

(** C3. For every attachment with a non-empty URL string, the line the
    transform adds is built from the derived file name and the resolved
    absolute URL, where: the file name is the last path segment of the URL
    cut at its first question mark (a segment being a component between
    slashes that is neither empty nor a single dot, as [pathlib] has it),
    or "attachment" when there is no segment, and nothing else fits that
    description; the absolute URL is the URL
    itself when it starts with "http://" or "https://", the source host
    followed by the URL when it starts with "/", and the source host, a
    "/" and the URL otherwise. *)
Theorem filename_and_absolute_url
        (body_parts : list json) (att : json) (url : string) :
  py_get att "url" (JStr "") = Ok (JStr url) -> url <> "" ->
  attachment_step body_parts att
  = Ok (append body_parts
               (JStr (markdown_line (derived_filename url) (absolute_url url))))
  /\ last_segment_or_fallback url (derived_filename url)
  /\ (forall f, last_segment_or_fallback url f -> f = derived_filename url)
  /\ resolved_against_host url (absolute_url url).
Proof.
  intros G U.
  split; [exact (attachment_step_url body_parts att url G U)|].
  assert (L : last_segment_or_fallback url (derived_filename url)).
  { destruct (before_query_spec url) as (Q & M).
    split; [exact Q|]. split; [exact M|].
    split; [apply split_join | apply derived_filename_spec]. }
  split; [exact L|].
  split; [intros f Hf; exact (last_segment_unique url _ _ Hf L)|].
  unfold resolved_against_host, absolute_url, source_host.
  destruct (String.prefix "http://" url) eqn:P1;
    destruct (String.prefix "https://" url) eqn:P2;
    destruct (String.prefix "/" url) eqn:P3; cbn [orb];
    repeat match goal with
           | H : String.prefix _ _ = true |- _ =>
               apply prefix_starts_with in H
           | H : String.prefix ?p ?s = false |- _ =>
               assert (~ starts_with p s)
                 by (rewrite <- prefix_starts_with; congruence);
               clear H
           end;
    repeat split; intros; try reflexivity; tauto.
Qed.

Lemma filename_and_absolute_url_witness :
  let att := JDict [("url", JStr "/attachment/photo.PNG")] in
  let url := "/attachment/photo.PNG" in
  derived_filename url = "photo.PNG"
  /\ absolute_url url = "https://sourceforge.net/attachment/photo.PNG"
  /\ attachment_step [] att
     = Ok [JStr "![photo.PNG](https://sourceforge.net/attachment/photo.PNG)"]
  /\ last_segment_or_fallback url "photo.PNG"
  /\ (forall f, last_segment_or_fallback url f -> f = "photo.PNG")
  /\ resolved_against_host url "https://sourceforge.net/attachment/photo.PNG".
Proof.
  intros att url.
  split; [reflexivity|]. split; [reflexivity|].
  apply (filename_and_absolute_url [] att url); [reflexivity | discriminate].
Defined.

(* ================================================================= *)
(** ** When the transform returns *)

Lemma attachment_step_ok (acc : list json) (att : json) :
  attachment_ok att = true ->
  attachment_step acc att
  = Ok (List.app acc (map JStr (spec_attachment_lines att))).
Proof.
  unfold attachment_ok. intros H. apply andb_prop in H. destruct H as (D & S).
  pose proof (py_get_dict att "url" (JStr "") D) as G.
  unfold spec_attachment_lines.
  destruct (field att "url" (JStr "")) as [ |b|z|u|l|kvs] eqn:F;
    cbn [str_or_falsy] in S;
    try (unfold attachment_step; rewrite G; cbn [bind];
         apply negb_true_iff in S; rewrite S; cbn [map];
         now rewrite app_nil_r).
  destruct (String.eqb u "") eqn:U.
  - unfold attachment_step. rewrite G. cbn [bind truthy]. rewrite U.
    cbn [negb map]. now rewrite app_nil_r.
  - apply String.eqb_neq in U. rewrite (attachment_step_url acc att u G U).
    cbn [truthy py_str]. apply String.eqb_neq in U. rewrite U. reflexivity.
Qed.

Lemma attachment_loop_ok (xs : list json) (acc : list json) :
  forallb attachment_ok xs = true ->
  for_each xs attachment_step acc
  = Ok (List.app acc (map JStr (flat_map spec_attachment_lines xs))).
Proof.
  revert acc; induction xs as [|x xs IH]; intros acc; simpl; intros H.
  - now rewrite app_nil_r.
  - apply andb_prop in H. destruct H as (Hx & Hxs).
    rewrite (attachment_step_ok acc x Hx). cbn [bind].
    rewrite (IH _ Hxs). now rewrite map_app, app_assoc.
Qed.

Lemma post_step_ok (acc : list string) (post : json) :
  post_ok post = true ->
  post_step acc post
  = Ok (List.app acc (if has_text post then [spec_comment post] else [])).
Proof.
  unfold post_ok. intros H. apply andb_prop in H. destruct H as (D & S).
  unfold post_step, has_text.
  rewrite !(py_get_dict post _ _ D). cbn [bind].
  destruct (field post "text" (JStr "")) as [ |b|z|u|l|kvs] eqn:F;
    cbn [str_or_falsy] in S;
    try (apply negb_true_iff in S; rewrite S; now rewrite app_nil_r).
  destruct (truthy (JStr u)); [|now rewrite app_nil_r].
  unfold spec_comment, provenance_line, date_line. rewrite F. reflexivity.
Qed.

Lemma post_loop_ok (xs : list json) (acc : list string) :
  forallb post_ok xs = true ->
  for_each xs post_step acc
  = Ok (List.app acc (map spec_comment (filter has_text xs))).
Proof.
  revert acc; induction xs as [|x xs IH]; intros acc; simpl; intros H.
  - now rewrite app_nil_r.
  - apply andb_prop in H. destruct H as (Hx & Hxs).
    rewrite (post_step_ok acc x Hx). cbn [bind].
    rewrite (IH _ Hxs), <- app_assoc.
    destruct (has_text x); reflexivity.
Qed.

Lemma header_strings_ok (ticket detailed_ticket : json) :
  str_or_falsy (resolved_description ticket detailed_ticket) = true ->
  strings_of (header_parts ticket detailed_ticket)
  = Ok (header_lines ticket detailed_ticket).
Proof.
  intros S. unfold header_parts, header_lines, description_text.
  cbn [firstn map List.app strings_of bind].
  destruct (resolved_description ticket detailed_ticket) as [ |b|z|u|l|kvs];
    cbn [str_or_falsy] in S; try (apply negb_true_iff in S; rewrite S; reflexivity).
  destruct (truthy (JStr u)); reflexivity.
Qed.

Lemma strings_of_app_ok (xs ys : list json) (a b : list string) :
  strings_of xs = Ok a -> strings_of ys = Ok b ->
  strings_of (List.app xs ys) = Ok (List.app a b).
Proof.
  revert a; induction xs as [|x xs IH]; intros a; simpl.
  - intros H; injection H as <-. auto.
  - destruct x; try discriminate.
    intros H Hb. bind_inv H. injection H as <-.
    rewrite (IH _ E Hb). reflexivity.
Qed.

Lemma iterates_elements (ok : json -> bool) (v : json) :
  iterates ok v = true ->
  py_iter v = Ok (elements v) /\ forallb ok (elements v) = true.
Proof.
  unfold iterates, elements. destruct (py_iter v); [auto | discriminate].
Qed.

Lemma join_first_nonempty (sep : string) (c : ascii) (x : string)
      (rest : list string) :
  join sep (String c x :: rest) <> "".
Proof.
  destruct rest; simpl; discriminate.
Qed.

Lemma append_assoc (a b c : string) : (a ++ b) ++ c = a ++ b ++ c.
Proof.
  induction a as [|x a IH]; simpl; [reflexivity | now rewrite IH].
Qed.

Lemma append_empty_r (a : string) : a ++ "" = a.
Proof.
  induction a as [|x a IH]; simpl; [reflexivity | now rewrite IH].
Qed.

Lemma contains_join (sep x : string) (l : list string) :
  In x l -> contains x (join sep l).
Proof.
  unfold contains. induction l as [|y l IH]; [contradiction|].
  intros [-> | I].
  - destruct l as [|z l].
    + exists "", "". simpl. now rewrite append_empty_r.
    + exists "", (sep ++ join sep (z :: l)). reflexivity.
  - destruct l as [|z l]; [contradiction|].
    destruct (IH I) as (front & back & E).
    exists (y ++ sep ++ front), back.
    rewrite join_cons, E, !append_assoc. reflexivity.
Qed.

Lemma convertible_converts (ticket detailed_ticket : json) :
  convertible ticket detailed_ticket = true ->
  convert_ticket_to_issue ticket detailed_ticket
  = Ok (spec_draft ticket detailed_ticket).
Proof.
  unfold convertible. intros H.
  repeat (apply andb_prop in H; let X := fresh "C" in destruct H as (H & X)).
  rename H into Dt, C6 into Dd, C5 into Ddd, C4 into Cs, C3 into Cd,
    C2 into Ca, C1 into Cl, C0 into Dth, C into Cp.
  unfold convert_ticket_to_issue.
  assert (G : (if truthy detailed_ticket
               then py_get detailed_ticket "ticket" (JDict [])
               else Ok (JDict []))
              = Ok (detailed_data_of detailed_ticket)).
  { unfold detailed_data_of. destruct (truthy detailed_ticket); [|reflexivity].
    apply py_get_dict. exact Dd. }
  rewrite G. cbn [bind].
  rewrite !(py_get_dict ticket _ _ Dt). cbn [bind].
  rewrite !(py_get_dict (detailed_data_of detailed_ticket) _ _ Ddd).
  cbn [bind].
  fold (ticket_num_of ticket) (status_of ticket).
  assert (R : (if truthy (field (detailed_data_of detailed_ticket)
                                "description" JNull)
               then Ok (field (detailed_data_of detailed_ticket)
                              "description" JNull)
               else Ok (field ticket "description" (JStr "")))
              = Ok (resolved_description ticket detailed_ticket)).
  { unfold resolved_description.
    destruct (truthy (field (detailed_data_of detailed_ticket)
                            "description" JNull)); reflexivity. }
  rewrite R. cbn [bind]. clear R G.
  fold (source_attachments detailed_ticket).
  change [JStr ("**Migrated from SourceForge ticket #"
                  ++ py_str (ticket_num_of ticket) ++ "**");
          JStr "";
          JStr ("**Original Reporter:** "
                  ++ py_str (field ticket "reported_by" (JStr "unknown")));
          JStr ("**Created:** "
                  ++ py_str (field ticket "created_date" (JStr "")));
          JStr ("**Last Modified:** "
                  ++ py_str (field ticket "mod_date" (JStr "")));
          JStr ("**Status:** " ++ py_str (status_of ticket));
          JStr ""; JStr "---"; JStr ""; JStr "## Description"; JStr "";
          if truthy (resolved_description ticket detailed_ticket)
          then resolved_description ticket detailed_ticket
          else JStr "*(No description provided)*"]
    with (header_parts ticket detailed_ticket).
  (* body *)
  assert (B : exists body_parts,
             (if truthy (source_attachments detailed_ticket)
              then py_for (source_attachments detailed_ticket)
                     (extend (header_parts ticket detailed_ticket)
                        [JStr ""; JStr "---"; JStr ""; JStr "## Attachments";
                         JStr ""])
                     attachment_step
              else Ok (header_parts ticket detailed_ticket)) = Ok body_parts
             /\ py_join nl body_parts
                = Ok (join nl (List.app (header_lines ticket detailed_ticket)
                                        (attachment_section detailed_ticket)))).
  { unfold attachment_section.
    pose proof (header_strings_ok _ _ Cd) as Hh.
    destruct (truthy (source_attachments detailed_ticket)).
    - simpl in Ca. apply iterates_elements in Ca. destruct Ca as (I & F).
      eexists. split.
      + unfold py_for. rewrite I. cbn [bind].
        apply attachment_loop_ok. exact F.
      + unfold py_join, extend.
        erewrite strings_of_app_ok;
          [ | eapply strings_of_app_ok;
              [exact Hh | exact (strings_of_map attachments_heading)]
            | apply strings_of_map ].
        cbn [bind]. now rewrite <- app_assoc.
    - eexists. split; [reflexivity|].
      unfold py_join. rewrite Hh. cbn [bind]. reflexivity. }
  destruct B as (body_parts & B1 & B2).
  rewrite B1. cbn [bind]. rewrite B2. cbn [bind]. clear B1 B2.
  (* labels *)
  assert (L1 : (if truthy (status_of ticket)
                then lowered <- str_lower (status_of ticket) ;;
                     Ok (append ["migrated-from-sourceforge"]
                                ("sf-status-" ++ py_replace " " "-" lowered))
                else Ok ["migrated-from-sourceforge"])
               = Ok ("migrated-from-sourceforge"
                     :: (if truthy (status_of ticket)
                         then ["sf-status-"
                                 ++ sanitize (py_str (status_of ticket))]
                         else []))).
  { destruct (status_of ticket) as [ |b|z|u|l|kvs];
      cbn [str_or_falsy] in Cs;
      try (apply negb_true_iff in Cs; rewrite Cs; reflexivity).
    destruct (truthy (JStr u)); reflexivity. }
  rewrite L1. cbn [bind]. clear L1.
  assert (L2 : forall labels1,
             (if truthy (field (detailed_data_of detailed_ticket) "labels"
                               (JList []))
              then py_for (field (detailed_data_of detailed_ticket) "labels"
                                 (JList [])) labels1 label_step
              else Ok labels1)
             = Ok (List.app labels1
                     (map (fun l => sanitize (py_str l))
                          (filter truthy (source_labels detailed_ticket))))).
  { intros labels1. unfold source_labels.
    destruct (truthy (field (detailed_data_of detailed_ticket) "labels"
                            (JList []))) eqn:T.
    - simpl in Cl. apply iterates_elements in Cl. destruct Cl as (I & _).
      unfold py_for. rewrite I. cbn [bind]. apply label_loop.
    - rewrite (elements_falsy _ T). simpl. now rewrite app_nil_r. }
  rewrite L2. cbn [bind]. clear L2.
  rewrite (py_get_dict _ "posts" (JList []) Dth). cbn [bind].
  apply iterates_elements in Cp. destruct Cp as (I & F).
  unfold py_for. rewrite I. cbn [bind].
  rewrite (post_loop_ok _ [] F). cbn [bind].
  reflexivity.
Qed.

Lemma attachment_step_needs (acc r : list json) (att : json) :
  attachment_step acc att = Ok r -> attachment_ok att = true.
Proof.
  unfold attachment_step, attachment_ok. intros H.
  bind_inv H; get_inv E; subst x. rewrite D. cbn [andb].
  destruct (field att "url" (JStr "")) as [ |b|z|u|l|kvs];
    cbn [str_or_falsy]; try reflexivity;
    destruct (truthy _); try reflexivity; discriminate.
Qed.

Lemma attachment_loop_needs (xs : list json) (acc r : list json) :
  for_each xs attachment_step acc = Ok r -> forallb attachment_ok xs = true.
Proof.
  revert acc; induction xs as [|x xs IH]; intros acc; simpl; intros H.
  - reflexivity.
  - bind_inv H. rewrite (attachment_step_needs _ _ _ E). eauto.
Qed.

Lemma post_step_needs (acc r : list string) (post : json) :
  post_step acc post = Ok r -> post_ok post = true.
Proof.
  unfold post_step, post_ok. intros H.
  bind_inv H; get_inv E; subst x.
  bind_inv H; get_inv E; subst x.
  bind_inv H; get_inv E; subst x. rewrite D. cbn [andb].
  destruct (field post "text" (JStr "")) as [ |b|z|u|l|kvs];
    cbn [str_or_falsy]; try reflexivity;
    destruct (truthy _); try reflexivity; discriminate.
Qed.

Lemma post_loop_needs (xs : list json) (acc r : list string) :
  for_each xs post_step acc = Ok r -> forallb post_ok xs = true.
Proof.
  revert acc; induction xs as [|x xs IH]; intros acc; simpl; intros H.
  - reflexivity.
  - bind_inv H. rewrite (post_step_needs _ _ _ E). eauto.
Qed.

Lemma header_strings_needs (ticket detailed_ticket : json) (hs : list string) :
  strings_of (header_parts ticket detailed_ticket) = Ok hs ->
  str_or_falsy (resolved_description ticket detailed_ticket) = true.
Proof.
  unfold header_parts. intros H.
  apply strings_of_app in H. destruct H as (a & b & _ & Hb & _).
  destruct (resolved_description ticket detailed_ticket) as [ |b0|z|u|l|kvs];
    cbn [str_or_falsy]; try reflexivity;
    destruct (truthy _); try reflexivity; discriminate.
Qed.

Lemma py_for_iterates {S : Type} (ok : json -> bool) (v : json) (s r : S)
      (body : S -> json -> result S) :
  (forall xs a b, for_each xs body a = Ok b -> forallb ok xs = true) ->
  py_for v s body = Ok r -> iterates ok v = true.
Proof.
  intros N H. apply py_for_Ok in H. destruct H as (xs & I & H).
  unfold iterates. rewrite I. eauto.
Qed.

Lemma converts_convertible (ticket detailed_ticket : json) (draft : IssueDraft) :
  convert_ticket_to_issue ticket detailed_ticket = Ok draft ->
  convertible ticket detailed_ticket = true.
Proof.
  intros H. apply convert_inv in H.
  destruct H as (Dt & Ddd & Dth & Dd & _ & (body_parts & Hparts & Hjoin)
                 & (labels1 & Hs & Hl) & Hp).
  unfold convertible.
  rewrite Dt, Dd, Ddd, Dth. cbn [andb].
  apply status_labels in Hs. destruct Hs as (_ & Hs).
  assert (Cs : str_or_falsy (status_of ticket) = true).
  { destruct (truthy (status_of ticket)) eqn:T.
    - destruct (Hs eq_refl) as (s & -> & _). reflexivity.
    - destruct (status_of ticket); cbn [str_or_falsy]; try reflexivity;
        now rewrite T. }
  rewrite Cs. cbn [andb]. clear Cs Hs.
  unfold py_join in Hjoin. bind_inv Hjoin. clear Hjoin.
  assert (Cd : str_or_falsy (resolved_description ticket detailed_ticket) = true
               /\ (negb (truthy (source_attachments detailed_ticket))
                   || iterates attachment_ok (source_attachments detailed_ticket)
                   = true)).
  { destruct (truthy (source_attachments detailed_ticket)).
    - cbn [negb orb]. split.
      + apply py_for_Ok in Hparts. destruct Hparts as (xs & I & Hparts).
        apply attachment_loop in Hparts. subst body_parts.
        unfold extend in E.
        apply strings_of_app in E. destruct E as (a & b & Ha & _ & _).
        apply strings_of_app in Ha. destruct Ha as (h & c & Hh & _ & _).
        eapply header_strings_needs; eauto.
      + eapply py_for_iterates; [|exact Hparts].
        intros xs a b. apply attachment_loop_needs.
    - injection Hparts as <-. split; [|reflexivity].
      eapply header_strings_needs; eauto. }
  destruct Cd as (-> & ->). cbn [andb].
  assert (Cl : negb (truthy (field (detailed_data_of detailed_ticket) "labels"
                                   (JList [])))
               || iterates (fun _ => true)
                    (field (detailed_data_of detailed_ticket) "labels"
                           (JList [])) = true).
  { destruct (truthy (field (detailed_data_of detailed_ticket) "labels"
                            (JList []))); [|reflexivity].
    cbn [negb orb]. eapply py_for_iterates; [|exact Hl].
    intros xs _ _ _. clear. induction xs; simpl; auto. }
  rewrite Cl. cbn [andb].
  eapply py_for_iterates; [|exact Hp].
  intros xs a b. apply post_loop_needs.
Qed.

(** C8, as the code has it. The transform returns a draft exactly on the
    inputs [convertible] describes; on those it returns the draft of the
    specification: the body is never empty, the title contains the
    original record identifier, and when neither input has a description
    the body contains the placeholder "*(No description provided)*". *)
Theorem transform_returns_on_convertible (ticket detailed_ticket : json) :
  ((exists draft, convert_ticket_to_issue ticket detailed_ticket = Ok draft)
   <-> convertible ticket detailed_ticket = true)
  /\ (convertible ticket detailed_ticket = true ->
      exists draft,
        convert_ticket_to_issue ticket detailed_ticket = Ok draft
        /\ body draft <> ""
        /\ contains (py_str (ticket_num_of ticket)) (title draft)
        /\ (truthy (resolved_description ticket detailed_ticket) = false ->
            contains "*(No description provided)*" (body draft))).
Proof.
  split.
  - split.
    + intros (draft & H). eapply converts_convertible; eauto.
    + intros C. eexists. apply convertible_converts. exact C.
  - intros C. exists (spec_draft ticket detailed_ticket).
    split; [apply convertible_converts; exact C|].
    unfold spec_draft. cbn [title body].
    split; [|split].
    + unfold header_lines. cbn [List.app].
      change ("**Migrated from SourceForge ticket #"
                ++ py_str (ticket_num_of ticket) ++ "**")
        with (String "*" ("*Migrated from SourceForge ticket #"
                            ++ py_str (ticket_num_of ticket) ++ "**")).
      apply join_first_nonempty.
    + exists "[SF#", ("] " ++ py_str (field ticket "summary" (JStr "No summary"))).
      reflexivity.
    + intros T. apply contains_join. apply in_or_app. left.
      unfold header_lines, description_text. rewrite T.
      unfold placeholder. simpl. tauto.
Qed.

Lemma transform_returns_on_convertible_witness :
  convertible ex_ticket JNull = true
  /\ exists draft,
      convert_ticket_to_issue ex_ticket JNull = Ok draft
      /\ body draft <> ""
      /\ contains "42" (title draft)
      /\ (truthy (resolved_description ex_ticket JNull) = false ->
          contains "*(No description provided)*" (body draft)).
Proof.
  split; [reflexivity|].
  exact (proj2 (transform_returns_on_convertible ex_ticket JNull) eq_refl).
Defined.

(** C8, as stated, fails: a summary whose status is a number, and a detail
    whose discussion thread is null, both make the transform raise. *)
Lemma transform_raises_on_ill_typed_fields :
  convert_ticket_to_issue (JDict [("ticket_num", JInt 7); ("status", JInt 404)])
                          JNull
  = Raise AttributeError
  /\ convert_ticket_to_issue
       (JDict [("ticket_num", JInt 7)])
       (JDict [("ticket", JDict [("discussion_thread", JNull)])])
     = Raise AttributeError
  /\ ~ (forall kvs detailed_ticket,
          exists draft,
            convert_ticket_to_issue (JDict kvs) detailed_ticket = Ok draft).
Proof.
  split; [reflexivity|]. split; [reflexivity|].
  intros H.
  destruct (H [("ticket_num", JInt 7); ("status", JInt 404)] JNull)
    as (draft & E).
  discriminate E.
Qed.

(* ================================================================= *)
(** ** Computations that talk to the network *)

Lemma io_bind_Return {A B : Type} (m : IO A) (k : A -> IO B)
      (log log' : list event) (a : A) :
  m log = (Return a, log') -> io_bind m k log = k a log'.
Proof. unfold io_bind. now intros ->. Qed.

Lemma io_bind_Throw {A B : Type} (m : IO A) (k : A -> IO B)
      (log log' : list event) (e : exn) :
  m log = (Throw e, log') -> io_bind m k log = (Throw e, log').
Proof. unfold io_bind. now intros ->. Qed.

Lemma lift_Ok {A : Type} (a : A) (log : list event) :
  lift (Ok a) log = (Return a, log).
Proof. reflexivity. Qed.

Lemma history_app (l1 l2 : list event) :
  history (List.app l1 l2) = List.app (history l1) (history l2).
Proof. apply map_app. Qed.

Lemma io_for_app {X S : Type} (xs ys : list X) (body : S -> X -> IO S)
      (s : S) (log : list event) :
  io_for (List.app xs ys) body s log
  = io_bind (io_for xs body s) (io_for ys body) log.
Proof.
  revert s log. induction xs as [|x xs IH]; intros s log; simpl.
  - reflexivity.
  - unfold io_bind.
    destruct (body s x log) as [[s1|e| ] log1]; [|reflexivity..].
    rewrite IH. reflexivity.
Qed.

Lemma io_for_cons_Return {X S : Type} (x : X) (xs : list X)
      (body : S -> X -> IO S) (s r : S) (log log' : list event) :
  io_for (x :: xs) body s log = (Return r, log') ->
  exists s1 log1,
    body s x log = (Return s1, log1)
    /\ io_for xs body s1 log1 = (Return r, log').
Proof.
  simpl. unfold io_bind.
  destruct (body s x log) as [[s1|e| ] log1]; try discriminate. eauto.
Qed.

(* ================================================================= *)
(** ** The pagination loop *)

Section ReaderFacts.

Variable respond : list action -> request -> response.
Variables project_name tracker_name status : string.
Variable limit : Z.
Variable log0 : list event.

Let plog := page_log respond project_name tracker_name status limit log0.
Let presp := page_response respond project_name tracker_name status limit log0.
Let coll := collected respond project_name tracker_name status limit log0.
Let stops := stops_at respond project_name tracker_name status limit log0.
Let pok := page_ok respond project_name tracker_name status limit log0.
Let sreq := search_request project_name tracker_name status limit.
Let floop := fetch_loop respond project_name tracker_name.

(** One turn of the loop on a payload of the expected shape. *)
Lemma fetch_loop_step (fuel p : nat) :
  pok p = true ->
  floop (S fuel) status limit p (coll p) (plog p)
  = if stops p
    then (Return (coll (S p)), append (plog p) (Requested (sreq p) (presp p)))
    else floop fuel status limit (S p) (coll (S p)) (plog (S p)).
Proof.
  intros W.
  unfold stops, stops_at, request_failed, empty_page, total_reached.
  unfold pok, page_ok in W.
  unfold floop, coll, plog. cbn [fetch_loop collected page_log].
  fold floop coll plog.
  unfold io_bind at 1. unfold http at 1.
  change (Get (sf_base_url project_name tracker_name ++ "/search")
              (search_params status limit p)) with (sreq p).
  change (respond (history (plog p)) (sreq p)) with (presp p).
  fold presp in W |- *.
  unfold page_records, page_tickets, reported_total.
  destruct (presp p) as [|data] eqn:R.
  - cbn [orb]. unfold ret. simpl elements. now rewrite app_nil_r.
  - cbn [orb]. apply andb_prop in W. destruct W as (D & W).
    rewrite (py_get_dict data "tickets" (JList []) D).
    unfold io_bind at 1. rewrite lift_Ok.
    destruct (truthy (field data "tickets" (JList []))) eqn:T.
    + cbn [negb orb] in W |- *. apply andb_prop in W. destruct W as (I & C).
      apply iterates_elements in I. destruct I as (I & _).
      unfold py_extend. rewrite I. cbn [bind].
      unfold io_bind at 1. rewrite lift_Ok.
      rewrite (py_get_dict data "count" (JInt 0) D).
      unfold io_bind at 1. rewrite lift_Ok.
      unfold extend.
      assert (L : len_ge (List.length (List.app (coll p)
                                         (elements (field data "tickets" (JList [])))))
                         (field data "count" (JInt 0))
                  = Ok (match field data "count" (JInt 0) with
                        | JInt z => z
                        | JBool true => 1
                        | _ => 0
                        end <=? Z.of_nat (List.length
                                 (List.app (coll p)
                                    (elements (field data "tickets" (JList []))))))%Z).
      { destruct (field data "count" (JInt 0)) as [ |[|]|z|s|l|kvs];
          try discriminate; reflexivity. }
      rewrite L. unfold io_bind at 1. rewrite lift_Ok.
      match goal with |- context [(?a <=? ?b)%Z] => destruct (a <=? b)%Z end.
      * reflexivity.
      * unfold io_bind at 1. unfold sleep, append.
        rewrite <- app_assoc.
        change (respond (history (plog p))
                  (search_request project_name tracker_name status limit p))
          with (presp p).
        rewrite R. reflexivity.
    + cbn [negb orb]. unfold ret.
      rewrite (elements_falsy _ T). now rewrite app_nil_r.
Qed.

(** The loop stops at the first page that meets a stop condition, and it
    has then made one request per page up to and including that page. *)
Lemma fetch_loop_stops (d p : nat) :
  (forall i, p <= i <= p + d -> pok i = true) ->
  (forall i, p <= i < p + d -> stops i = false) ->
  stops (p + d) = true ->
  forall fuel, d < fuel ->
  floop fuel status limit p (coll p) (plog p)
  = (Return (coll (S (p + d))),
     append (plog (p + d)) (Requested (sreq (p + d)) (presp (p + d)))).
Proof.
  revert p. induction d as [|d IH]; intros p W N St fuel F.
  - destruct fuel as [|fuel]; [lia|].
    rewrite Nat.add_0_r in *.
    rewrite fetch_loop_step by (apply W; lia). now rewrite St.
  - destruct fuel as [|fuel]; [lia|].
    rewrite fetch_loop_step by (apply W; lia).
    rewrite N by lia.
    replace (p + S d) with (S p + d) in * by lia.
    apply IH; try lia; try assumption.
    + intros i Hi. apply W. lia.
    + intros i Hi. apply N. lia.
Qed.

(** While no page meets a stop condition the loop keeps asking. *)
Lemma fetch_loop_spins (fuel p : nat) :
  (forall i, p <= i < p + fuel -> pok i = true) ->
  (forall i, p <= i < p + fuel -> stops i = false) ->
  floop fuel status limit p (coll p) (plog p) = (Spin, plog (p + fuel)).
Proof.
  revert p. induction fuel as [|fuel IH]; intros p W N.
  - rewrite Nat.add_0_r. reflexivity.
  - rewrite fetch_loop_step by (apply W; lia).
    rewrite N by lia.
    replace (p + S fuel) with (S p + fuel) by lia.
    apply IH; intros i Hi; [apply W | apply N]; lia.
Qed.

End ReaderFacts.

(* ================================================================= *)
(** ** The reader: where pagination ends *)

(** C5, as the code has it. On payloads of the expected shape, the
    pagination loop ends with page [k] exactly when [k] is the first page
    for which the request fails, or the page has zero records, or the
    number of records fetched so far has reached the total the server
    reports: with fuel for more than [k] pages it returns the records of
    all pages fetched so far, in fetch order, after one request per page,
    and with fuel for [k] pages or fewer it is still running. *)
Theorem pagination_ends_at_first_stop
        (respond : list action -> request -> response)
        (project_name tracker_name status : string) (limit : Z)
        (log0 : list event) (k : nat) :
  (forall i, i <= k ->
     page_ok respond project_name tracker_name status limit log0 i = true) ->
  (forall i, i < k ->
     stops_at respond project_name tracker_name status limit log0 i = false) ->
  request_failed respond project_name tracker_name status limit log0 k
  || empty_page respond project_name tracker_name status limit log0 k
  || total_reached respond project_name tracker_name status limit log0 k
  = true ->
  (forall fuel, k < fuel ->
     fetch_tickets respond project_name tracker_name fuel status limit log0
     = (Return (collected respond project_name tracker_name status limit
                          log0 (S k)),
        append (page_log respond project_name tracker_name status limit log0 k)
               (Requested
                  (search_request project_name tracker_name status limit k)
                  (page_response respond project_name tracker_name status
                                 limit log0 k))))
  /\ (forall fuel, fuel <= k ->
        fst (fetch_tickets respond project_name tracker_name fuel status
                           limit log0) = Spin).
Proof.
  intros W N St. split.
  - intros fuel F. unfold fetch_tickets.
    apply (fetch_loop_stops respond project_name tracker_name status limit
                            log0 k 0); auto.
    + intros i Hi. apply W. lia.
    + intros i Hi. apply N. lia.
  - intros fuel F. unfold fetch_tickets.
    pose proof (fetch_loop_spins respond project_name tracker_name status
                                 limit log0 fuel 0) as Sp.
    cbv zeta in Sp. simpl collected in Sp. simpl page_log in Sp at 1.
    rewrite Sp; [reflexivity | |].
    + intros i Hi. apply W. lia.
    + intros i Hi. apply N. lia.
Qed.

Lemma pagination_ends_at_first_stop_witness :
  fetch_tickets demo_respond "p" "bugs" 5 "open" 100 []
  = (Return ten_tickets,
     append (page_log demo_respond "p" "bugs" "open" 100 [] 2)
            (Requested (search_request "p" "bugs" "open" 100 2)
                       (page_response demo_respond "p" "bugs" "open" 100 [] 2)))
  /\ fst (fetch_tickets demo_respond "p" "bugs" 2 "open" 100 []) = Spin.
Proof.
  assert (W : forall i, i <= 2 ->
                page_ok demo_respond "p" "bugs" "open" 100 [] i = true).
  { intros i Hi. destruct i as [|[|[|i]]]; [reflexivity .. | lia]. }
  assert (N : forall i, i < 2 ->
                stops_at demo_respond "p" "bugs" "open" 100 [] i = false).
  { intros i Hi. destruct i as [|[|i]]; [reflexivity .. | lia]. }
  destruct (pagination_ends_at_first_stop
              demo_respond "p" "bugs" "open" 100 [] 2 W N eq_refl) as (R & Sp).
  split.
  - exact (R 5 ltac:(lia)).
  - exact (Sp 2 ltac:(lia)).
Defined.

(** C5, as stated, fails: the loop also ends when a request fails, and
    then no fetched page has zero records and no total was reached. *)
Lemma pagination_also_ends_on_request_failure :
  fetch_tickets failing_respond "p" "bugs" 1 "open" 100 []
  = (Return [],
     [Requested (search_request "p" "bugs" "open" 100 0) RequestException])
  /\ (forall k, empty_page failing_respond "p" "bugs" "open" 100 [] k = false
                /\ total_reached failing_respond "p" "bugs" "open" 100 [] k
                   = false)
  /\ ~ (forall respond fuel tickets log,
          fetch_tickets respond "p" "bugs" fuel "open" 100 [] = (Return tickets, log) ->
          exists k, empty_page respond "p" "bugs" "open" 100 [] k = true
                    \/ total_reached respond "p" "bugs" "open" 100 [] k = true).
Proof.
  split; [reflexivity|]. split; [intros k; split; reflexivity|].
  intros H.
  destruct (H failing_respond 1 [] _ eq_refl) as (k & [E | E]);
    discriminate E.
Qed.

(* ================================================================= *)
(** ** What computations emit *)

Lemma emits_ret {A : Type} (P : event -> Prop) (a : A) : emits P (ret a).
Proof. intros log. exists []. simpl. now rewrite app_nil_r. Qed.

Lemma emits_lift {A : Type} (P : event -> Prop) (r : result A) :
  emits P (lift r).
Proof.
  intros log. exists []. destruct r; simpl; now rewrite app_nil_r.
Qed.

Lemma emits_sleep (P : event -> Prop) (n : nat) :
  P (Slept n) -> emits P (sleep n).
Proof. intros H log. exists [Slept n]. simpl. auto. Qed.

Lemma emits_http (P : event -> Prop)
      (respond : list action -> request -> response) (rq : request) :
  (forall rs, P (Requested rq rs)) -> emits P (http respond rq).
Proof. intros H log. eexists [_]. simpl. split; [reflexivity | auto]. Qed.

Lemma emits_bind {A B : Type} (P : event -> Prop) (m : IO A) (k : A -> IO B) :
  emits P m -> (forall a, emits P (k a)) -> emits P (io_bind m k).
Proof.
  intros Hm Hk log. unfold io_bind.
  destruct (Hm log) as (new & E & F).
  destruct (m log) as [[a|e| ] log1]; simpl in E; subst log1.
  - destruct (Hk a (List.app log new)) as (new' & E' & F').
    exists (List.app new new'). rewrite E', <- app_assoc.
    split; [reflexivity | now apply Forall_app].
  - exists new. auto.
  - exists new. auto.
Qed.

Lemma emits_for {X S : Type} (P : event -> Prop) (xs : list X)
      (body : S -> X -> IO S) (s : S) :
  (forall s x, emits P (body s x)) -> emits P (io_for xs body s).
Proof.
  intros Hb. revert s. induction xs as [|x xs IH]; intros s; simpl.
  - apply emits_ret.
  - apply emits_bind; auto.
Qed.

Lemma emits_if {A : Type} (P : event -> Prop) (b : bool) (m m' : IO A) :
  emits P m -> emits P m' -> emits P (if b then m else m').
Proof. destruct b; auto. Qed.

Section OrchestratorFacts.

Variable respond : list action -> request -> response.
Variables project_name tracker_name owner repo : string.

Lemma fetch_loop_emits (P : event -> Prop) (fuel : nat) (status : string)
      (limit : Z) (page : nat) (tickets : list json) :
  (forall url params rs, P (Requested (Get url params) rs)) ->
  (forall n, P (Slept n)) ->
  emits P (fetch_loop respond project_name tracker_name fuel status limit
                      page tickets).
Proof.
  intros Hg Hs. revert page tickets.
  induction fuel as [|fuel IH]; intros page tickets; simpl.
  - intros log. exists []. simpl. now rewrite app_nil_r.
  - apply emits_bind; [apply emits_http; auto|].
    intros [|data]; [apply emits_ret|].
    apply emits_bind; [apply emits_lift|]. intros ticket_list.
    apply emits_if; [apply emits_ret|].
    apply emits_bind; [apply emits_lift|]. intros tickets'.
    apply emits_bind; [apply emits_lift|]. intros count.
    apply emits_bind; [apply emits_lift|]. intros enough.
    apply emits_if; [apply emits_ret|].
    apply emits_bind; [apply emits_sleep; auto|]. intros _. apply IH.
Qed.

Lemma prepare_issue_emits (P : event -> Prop) (ticket : json) :
  (forall url params rs, P (Requested (Get url params) rs)) ->
  (forall n, P (Slept n)) ->
  emits P (prepare_issue respond project_name tracker_name ticket).
Proof.
  intros Hg Hs. unfold prepare_issue, fetch_ticket_details.
  apply emits_bind; [apply emits_lift|]. intros ticket_num.
  apply emits_bind; [|intros; apply emits_lift].
  apply emits_if; [|apply emits_ret].
  apply emits_bind.
  - apply emits_bind; [apply emits_http; auto|].
    intros [|data]; apply emits_ret.
  - intros d. apply emits_bind; [|intros; apply emits_ret].
    apply emits_if; [apply emits_sleep; auto | apply emits_ret].
Qed.




End OrchestratorFacts.

(* ================================================================= *)
(** ** The orchestrator: preview mode and the limit *)






(** C9, as the code has it. The limit is tested for truthiness: a limit
    of 0 truncates nothing, the run is the run without a limit and every
    listed record is processed; a strictly positive limit [N] cuts the
    record list to its first [N] elements; a negative limit [-N] is a
    slice too and cuts the list to all but its last [N] elements. *)
Theorem limit_truncates_when_nonzero
        (respond : list action -> request -> response)
        (project_name tracker_name owner repo : string)
        (fuel : nat) (status : string) (dry_run : bool)
        (tickets : list json) (log : list event) :
  apply_limit (Some 0%Z) tickets = tickets
  /\ migrate_tickets respond project_name tracker_name owner repo
                     fuel status (Some 0%Z) dry_run log
     = migrate_tickets respond project_name tracker_name owner repo
                       fuel status None dry_run log
  /\ (forall N : positive,
        apply_limit (Some (Z.pos N)) tickets = firstn (Pos.to_nat N) tickets)
  /\ (forall N : positive,
        apply_limit (Some (Z.neg N)) tickets
        = firstn (List.length tickets - Pos.to_nat N) tickets).
Proof.
  split; [reflexivity|]. split; [reflexivity|].
  split; intros N; unfold apply_limit, limit_truthy, slice_to; simpl;
    reflexivity.
Qed.

(** C9, as stated, fails: a limit that is not strictly positive can
    truncate.  With a limit of -8 the preview run over the ten listed
    records processes the first two only. *)
Lemma negative_limit_truncates :
  apply_limit (Some (-8)%Z) ten_tickets = firstn 2 ten_tickets
  /\ fst (migrate_tickets demo_respond "p" "bugs" "o" "r" 5 "open"
                          (Some (-8)%Z) true []) = Return 2
  /\ ~ (forall (limit : Z) (tickets : list json),
          (limit <= 0)%Z -> apply_limit (Some limit) tickets = tickets).
Proof.
  split; [reflexivity|]. split; [reflexivity|].
  intros H. specialize (H (-8)%Z ten_tickets ltac:(lia)).
  discriminate H.
Qed.

(* ================================================================= *)
(** ** The orchestrator: counting what was written *)

Lemma count_of_app (p : event -> bool) (l1 l2 : list event) :
  count_of p (List.app l1 l2) = count_of p l1 + count_of p l2.
Proof. unfold count_of. now rewrite filter_app, length_app. Qed.

Lemma count_of_none (p : event -> bool) (l : list event) :
  Forall (fun e => p e = false) l -> count_of p l = 0.
Proof.
  unfold count_of. induction 1 as [|e l E _ IH]; simpl; [reflexivity|].
  now rewrite E.
Qed.

Lemma count_of_one (p : event -> bool) (e : event) :
  count_of p [e] = if p e then 1 else 0.
Proof. unfold count_of. simpl. now destruct (p e). Qed.

Lemma count_of_cons (p : event -> bool) (e : event) (l : list event) :
  count_of p (e :: l) = (if p e then 1 else 0) + count_of p l.
Proof. unfold count_of. simpl. now destruct (p e). Qed.

Section WriterFacts.

Variable respond : list action -> request -> response.
Variables project_name tracker_name owner repo : string.

Let no_create (e : event) : Prop :=
  create_succeeded owner repo e = false /\ create_failed owner repo e = false.

Lemma no_create_counts (l : list event) :
  Forall no_create l ->
  count_of (create_succeeded owner repo) l = 0
  /\ count_of (create_failed owner repo) l = 0.
Proof.
  intros F. split; apply count_of_none; eapply Forall_impl; try exact F;
    intros e (A & B); assumption.
Qed.

Lemma is_create_request (draft : IssueDraft) :
  is_create_issue owner repo (create_request owner repo draft) = true.
Proof.
  unfold create_request, is_create_issue. cbn [List.app].
  apply String.eqb_refl.
Qed.

(** What [create_issue] does, by the response it gets. *)
Lemma create_issue_run (draft : IssueDraft) (log : list event) :
  let rq := create_request owner repo draft in
  create_issue respond owner repo (title draft) (body draft) (labels draft) log
  = match respond (history log) rq with
    | RequestException =>
        (Return JNull, append log (Requested rq RequestException))
    | Body issue =>
        match py_getitem issue "number" with
        | Ok _ => (Return issue, append log (Requested rq (Body issue)))
        | Raise e => (Throw e, append log (Requested rq (Body issue)))
        end
    end.
Proof.
  intros rq. unfold create_issue, io_bind, http.
  assert (E : Post (issues_url owner repo)
                   (JDict match labels draft with
                          | [] => [("title", JStr (title draft));
                                   ("body", JStr (body draft))]
                          | _ :: _ =>
                              append [("title", JStr (title draft));
                                      ("body", JStr (body draft))]
                                     ("labels", JList (map JStr (labels draft)))
                          end) = rq).
  { unfold rq, create_request. destruct (labels draft); reflexivity. }
  rewrite E.
  destruct (respond (history log) rq) as [|issue]; [reflexivity|].
  destruct (py_getitem issue "number"); reflexivity.
Qed.

Lemma comments_emit_no_create (issue_number : json) (comments : list string) :
  emits no_create
        (io_for comments
                (comment_step respond owner repo issue_number) tt).
Proof.
  apply emits_for. intros [] c. unfold comment_step, add_comment.
  apply emits_bind.
  - apply emits_bind.
    + apply emits_http. intros rs. split; destruct rs; reflexivity.
    + intros [|data]; apply emits_ret.
  - intros _. apply emits_sleep. split; reflexivity.
Qed.

(** One record of a writing run: exactly one issue creation is attempted,
    and the record is counted exactly when that creation succeeded. *)
Lemma ticket_step_counts (c c' : nat) (ticket : json) (log log' : list event) :
  ticket_step respond project_name tracker_name owner repo false c ticket log
  = (Return c', log') ->
  exists new,
    log' = List.app log new
    /\ c' = c + count_of (create_succeeded owner repo) new
    /\ count_of (create_succeeded owner repo) new
       + count_of (create_failed owner repo) new = 1.
Proof.
  unfold ticket_step. intros H.
  destruct (prepare_issue_emits respond project_name tracker_name no_create
              ticket) with (log := log) as (new1 & E1 & F1).
  { intros; split; destruct rs; reflexivity. }
  { intros; split; reflexivity. }
  unfold io_bind at 1 in H.
  destruct (prepare_issue respond project_name tracker_name ticket log)
    as [[draft|e| ] log1]; try discriminate.
  simpl in E1. subst log1.
  unfold io_bind at 1 in H. rewrite create_issue_run in H.
  pose proof (is_create_request draft) as Cr.
  destruct (no_create_counts _ F1) as (S1 & X1).
  set (rq := create_request owner repo draft) in *.
  destruct (respond (history (List.app log new1)) rq) as [|issue].
  - cbn [truthy] in H. unfold ret in H. injection H as <- <-.
    exists (List.app new1 [Requested rq RequestException]).
    unfold append. rewrite app_assoc. split; [reflexivity|].
    rewrite !count_of_app, !count_of_one, S1, X1.
    cbn [create_succeeded create_failed]. rewrite Cr. split; lia.
  - destruct (py_getitem issue "number") as [num|e] eqn:G; [|discriminate].
    assert (T : truthy issue = true /\ is_dict issue = true).
    { destruct issue as [ | | | | |kvs]; try discriminate.
      destruct kvs; [discriminate | split; reflexivity]. }
    destruct T as (T & D). rewrite T in H.
    rewrite (py_get_dict issue "number" JNull D) in H.
    unfold io_bind at 1 in H. rewrite lift_Ok in H.
    unfold io_bind at 1 in H.
    match type of H with
    | context [match ?m ?l with _ => _ end] =>
        assert (Em : exists new3, snd (m l) = List.app l new3
                                  /\ Forall no_create new3);
        [|destruct (m l) as [[[]|e| ] log3]; try discriminate]
    end.
    { destruct (comments draft) as [|c0 cs].
      - exists []. simpl. now rewrite app_nil_r.
      - destruct (truthy (field issue "number" JNull)).
        + apply comments_emit_no_create.
        + exists []. simpl. now rewrite app_nil_r. }
    destruct Em as (new3 & E3 & F3). simpl in E3. subst log3.
    unfold io_bind, sleep, ret in H. injection H as <- <-.
    destruct (no_create_counts _ F3) as (S3 & X3).
    exists (List.app new1
              (List.app [Requested rq (Body issue)]
                        (List.app new3 [Slept 2]))).
    unfold append. rewrite <- !app_assoc. split; [reflexivity|].
    rewrite !count_of_app, !count_of_one, S1, X1, S3, X3.
    cbn [create_succeeded create_failed]. rewrite Cr. split; lia.
Qed.

Lemma write_loop_counts (tickets : list json) :
  forall c c' log log',
    io_for tickets
           (ticket_step respond project_name tracker_name owner repo false)
           c log = (Return c', log') ->
    exists new,
      log' = List.app log new
      /\ c' = c + count_of (create_succeeded owner repo) new
      /\ count_of (create_succeeded owner repo) new
         + count_of (create_failed owner repo) new = List.length tickets.
Proof.
  induction tickets as [|t tickets IH]; intros c c' log log' H.
  - simpl in H. unfold ret in H. injection H as <- <-.
    exists []. rewrite app_nil_r. simpl. unfold count_of. simpl.
    repeat split; lia.
  - apply io_for_cons_Return in H. destruct H as (c1 & log1 & Hs & Hl).
    apply ticket_step_counts in Hs. destruct Hs as (new1 & -> & -> & N1).
    apply IH in Hl. destruct Hl as (new2 & -> & -> & N2).
    exists (List.app new1 new2). rewrite app_assoc.
    split; [reflexivity|]. rewrite !count_of_app. simpl. split; lia.
Qed.

(** A completed writing run: the returned count is the number of issue
    creations that succeeded, and every processed record had exactly one
    creation attempt. *)
Lemma write_run_counts (fuel : nat) (status : string) (limit : option Z)
      (tickets : list json) (log1 log : list event) (n : nat) :
  fetch_tickets respond project_name tracker_name fuel status 100 []
  = (Return tickets, log1) ->
  migrate_tickets respond project_name tracker_name owner repo
                  fuel status limit false [] = (Return n, log) ->
  n = count_of (create_succeeded owner repo) log
  /\ n + count_of (create_failed owner repo) log
     = List.length (apply_limit limit tickets).
Proof.
  intros Hf Hm. unfold migrate_tickets in Hm.
  rewrite (io_bind_Return _ _ _ _ _ Hf) in Hm. unfold migrate_loop in Hm.
  apply write_loop_counts in Hm. destruct Hm as (new & -> & -> & N).
  destruct (fetch_loop_emits respond project_name tracker_name no_create
              fuel status 100 0 []) with (log := @nil event)
    as (new0 & E0 & F0).
  { intros; split; destruct rs; reflexivity. }
  { intros; split; reflexivity. }
  unfold fetch_tickets in Hf. rewrite Hf in E0. simpl in E0. subst log1.
  destruct (no_create_counts _ F0) as (S0 & X0).
  rewrite !count_of_app, S0, X0. simpl. split; lia.
Qed.

End WriterFacts.

(* ================================================================= *)
(** ** The orchestrator: a failed issue creation *)

Lemma ticket_step_create_fails
      (respond : list action -> request -> response)
      (project_name tracker_name owner repo : string)
      (c : nat) (ticket : json) (draft : IssueDraft) (log log2 : list event) :
  prepare_issue respond project_name tracker_name ticket log
  = (Return draft, log2) ->
  respond (history log2) (create_request owner repo draft) = RequestException ->
  ticket_step respond project_name tracker_name owner repo false c ticket log
  = (Return c,
     append log2 (Requested (create_request owner repo draft) RequestException)).
Proof.
  intros P R. unfold ticket_step.
  rewrite (io_bind_Return _ _ _ _ _ P).
  unfold io_bind at 1. rewrite create_issue_run. cbv zeta. rewrite R.
  reflexivity.
Qed.

(** C7. In a writing run, when the issue creation of a record fails, the
    record leaves the count as it was and its only request to the
    destination is the failed creation, so no comment is appended for it;
    the records after it are processed from there as usual, whatever
    happened to the records before it.  In every completed writing run the
    count returned plus the number of failed creations is the number of
    processed records: five records with exactly one failed creation give
    4. *)
Theorem failed_creation_is_isolated
        (respond : list action -> request -> response)
        (project_name tracker_name owner repo : string) :
  (forall (before after : list json) (ticket : json) (c0 c1 : nat)
          (log0 log1 log2 : list event) (draft : IssueDraft),
      io_for before
             (ticket_step respond project_name tracker_name owner repo false)
             c0 log0 = (Return c1, log1) ->
      prepare_issue respond project_name tracker_name ticket log1
      = (Return draft, log2) ->
      respond (history log2) (create_request owner repo draft)
      = RequestException ->
      io_for (List.app before (ticket :: after))
             (ticket_step respond project_name tracker_name owner repo false)
             c0 log0
      = io_for after
               (ticket_step respond project_name tracker_name owner repo false)
               c1
               (append log2 (Requested (create_request owner repo draft)
                                       RequestException)))
  /\ (forall (fuel : nat) (status : string) (limit : option Z)
             (tickets : list json) (log1 log : list event) (n : nat),
        fetch_tickets respond project_name tracker_name fuel status 100 []
        = (Return tickets, log1) ->
        migrate_tickets respond project_name tracker_name owner repo
                        fuel status limit false [] = (Return n, log) ->
        n + count_of (create_failed owner repo) log
        = List.length (apply_limit limit tickets)
        /\ (List.length (apply_limit limit tickets) = 5 ->
            count_of (create_failed owner repo) log = 1 -> n = 4)).
Proof.
  split.
  - intros before after ticket c0 c1 log0 log1 log2 draft Hb Hp Hr.
    rewrite io_for_app. rewrite (io_bind_Return _ _ _ _ _ Hb).
    cbn [io_for].
    rewrite (io_bind_Return _ _ _ _ _
               (ticket_step_create_fails respond project_name tracker_name
                  owner repo c1 ticket draft log1 log2 Hp Hr)).
    reflexivity.
  - intros fuel status limit tickets log1 log n Hf Hm.
    destruct (write_run_counts respond project_name tracker_name owner repo
                fuel status limit tickets log1 log n Hf Hm) as (_ & N).
    split; [exact N | lia].
Qed.

(* ================================================================= *)
(** ** The orchestrator: comment outcomes do not matter *)

Lemma same_ret {A : Type} (a : A) : same_run (ret a) (ret a).
Proof. intros log log' H. simpl. auto. Qed.

Lemma same_lift {A : Type} (r : result A) : same_run (lift r) (lift r).
Proof. intros log log' H. destruct r; simpl; auto. Qed.

Lemma same_sleep (n : nat) : same_run (sleep n) (sleep n).
Proof.
  intros log log' H. simpl. split; [reflexivity|].
  unfold append. now rewrite !history_app, H.
Qed.

Lemma same_bind {A B : Type} (m m' : IO A) (k k' : A -> IO B) :
  same_run m m' -> (forall a, same_run (k a) (k' a)) ->
  same_run (io_bind m k) (io_bind m' k').
Proof.
  intros Hm Hk log log' H. unfold io_bind.
  destruct (Hm log log' H) as (R & L).
  destruct (m log) as [o l], (m' log') as [o' l']. simpl in R, L. subst o'.
  destruct o as [a|e| ]; simpl; auto.
  apply Hk. exact L.
Qed.

Lemma same_if {A : Type} (b : bool) (m1 m1' m2 m2' : IO A) :
  same_run m1 m1' -> same_run m2 m2' ->
  same_run (if b then m1 else m2) (if b then m1' else m2').
Proof. destruct b; auto. Qed.

Lemma same_for {X S : Type} (xs : list X) (body body' : S -> X -> IO S) (s : S) :
  (forall s x, same_run (body s x) (body' s x)) ->
  same_run (io_for xs body s) (io_for xs body' s).
Proof.
  intros Hb. revert s. induction xs as [|x xs IH]; intros s; simpl.
  - apply same_ret.
  - apply same_bind; auto.
Qed.

Section SameRuns.

Variables respond respond' : list action -> request -> response.
Variables project_name tracker_name owner repo : string.

(** The two servers answer alike, except perhaps to comments. *)
Hypothesis agree :
  forall h rq, is_add_comment rq = false -> respond' h rq = respond h rq.

Lemma same_http (rq : request) :
  is_add_comment rq = false ->
  same_run (http respond rq) (http respond' rq).
Proof.
  intros N log log' H. unfold http. cbn [fst snd].
  rewrite (agree _ _ N), H. split; [reflexivity|].
  unfold append. rewrite !history_app, H. reflexivity.
Qed.

Lemma same_fetch_loop (fuel : nat) (status : string) (limit : Z)
      (page : nat) (tickets : list json) :
  same_run (fetch_loop respond project_name tracker_name fuel status limit
                       page tickets)
           (fetch_loop respond' project_name tracker_name fuel status limit
                       page tickets).
Proof.
  revert page tickets. induction fuel as [|fuel IH]; intros page tickets.
  - intros log log' H. simpl. auto.
  - cbn [fetch_loop].
    apply same_bind; [apply same_http; reflexivity|].
    intros [|data]; [apply same_ret|].
    apply same_bind; [apply same_lift|]. intros ticket_list.
    apply same_if; [apply same_ret|].
    apply same_bind; [apply same_lift|]. intros tickets'.
    apply same_bind; [apply same_lift|]. intros count.
    apply same_bind; [apply same_lift|]. intros enough.
    apply same_if; [apply same_ret|].
    apply same_bind; [apply same_sleep|]. intros _. apply IH.
Qed.

Lemma same_prepare_issue (ticket : json) :
  same_run (prepare_issue respond project_name tracker_name ticket)
           (prepare_issue respond' project_name tracker_name ticket).
Proof.
  unfold prepare_issue, fetch_ticket_details.
  apply same_bind; [apply same_lift|]. intros ticket_num.
  apply same_bind; [|intros; apply same_lift].
  apply same_if; [|apply same_ret].
  apply same_bind.
  - apply same_bind; [apply same_http; reflexivity|].
    intros [|data]; apply same_ret.
  - intros d. apply same_bind; [|intros; apply same_ret].
    apply same_if; [apply same_sleep | apply same_ret].
Qed.

Lemma same_create_issue (title body : string) (labels : list string) :
  same_run (create_issue respond owner repo title body labels)
           (create_issue respond' owner repo title body labels).
Proof.
  unfold create_issue.
  apply same_bind.
  - apply same_http. destruct labels; reflexivity.
  - intros [|issue]; [apply same_ret|].
    apply same_bind; [apply same_lift | intros; apply same_ret].
Qed.

(** A comment and the pause after it: whatever the answer, the loop goes
    on the same way. *)
Lemma same_comment_step (issue_number : json) (u : unit) (comment : string) :
  same_run (comment_step respond owner repo issue_number u comment)
           (comment_step respond' owner repo issue_number u comment).
Proof.
  intros log log' H. unfold comment_step, add_comment, io_bind, http, sleep, ret.
  destruct (respond _ _), (respond' _ _); cbn [fst snd];
    (split; [reflexivity|]);
    unfold append; rewrite !history_app, H; reflexivity.
Qed.

Lemma same_ticket_step (dry_run : bool) (c : nat) (ticket : json) :
  same_run (ticket_step respond project_name tracker_name owner repo
                        dry_run c ticket)
           (ticket_step respond' project_name tracker_name owner repo
                        dry_run c ticket).
Proof.
  unfold ticket_step.
  apply same_bind; [apply same_prepare_issue|]. intros draft.
  apply same_if; [apply same_ret|].
  apply same_bind; [apply same_create_issue|]. intros issue.
  apply same_if; [|apply same_ret].
  apply same_bind; [apply same_lift|]. intros issue_number.
  apply same_bind.
  - destruct (comments draft); [apply same_ret|].
    apply same_if; [|apply same_ret].
    apply same_for. intros u x. apply same_comment_step.
  - intros _. apply same_bind; [apply same_sleep | intros; apply same_ret].
Qed.

Lemma same_migrate_tickets (fuel : nat) (status : string) (limit : option Z)
      (dry_run : bool) :
  same_run (migrate_tickets respond project_name tracker_name owner repo
                            fuel status limit dry_run)
           (migrate_tickets respond' project_name tracker_name owner repo
                            fuel status limit dry_run).
Proof.
  unfold migrate_tickets, migrate_loop, fetch_tickets.
  apply same_bind; [apply same_fetch_loop|]. intros tickets.
  apply same_for. intros c t. apply same_ticket_step.
Qed.

End SameRuns.

(** C10. In a completed writing run the count returned is the number of
    issue creations that succeeded, one creation being attempted per
    record; and the outcome does not depend on how comments fare: two
    servers that answer alike except to comment requests give the same
    outcome and see the same actions, so a server that refuses every
    comment leaves the reported count as it is. *)
Theorem success_is_issue_creation_only
        (respond : list action -> request -> response)
        (project_name tracker_name owner repo : string)
        (fuel : nat) (status : string) (limit : option Z) :
  (forall (tickets : list json) (log1 log : list event) (n : nat),
      fetch_tickets respond project_name tracker_name fuel status 100 []
      = (Return tickets, log1) ->
      migrate_tickets respond project_name tracker_name owner repo
                      fuel status limit false [] = (Return n, log) ->
      n = count_of (create_succeeded owner repo) log
      /\ count_of (create_succeeded owner repo) log
         + count_of (create_failed owner repo) log
         = List.length (apply_limit limit tickets))
  /\ (forall respond' : list action -> request -> response,
        (forall h rq, is_add_comment rq = false ->
                      respond' h rq = respond h rq) ->
        fst (migrate_tickets respond' project_name tracker_name owner repo
                             fuel status limit false [])
        = fst (migrate_tickets respond project_name tracker_name owner repo
                               fuel status limit false [])
        /\ history (snd (migrate_tickets respond' project_name tracker_name
                                         owner repo fuel status limit false []))
           = history (snd (migrate_tickets respond project_name tracker_name
                                           owner repo fuel status limit false
                                           []))).
Proof.
  split.
  - intros tickets log1 log n Hf Hm.
    destruct (write_run_counts respond project_name tracker_name owner repo
                fuel status limit tickets log1 log n Hf Hm) as (S & N).
    split; [exact S | lia].
  - intros respond' A.
    destruct (same_migrate_tickets respond respond' project_name tracker_name
                owner repo A fuel status limit false [] [] eq_refl)
      as (R & H).
    split; congruence.
Qed.

(* ================================================================= *)
(** ** The two theorems on a concrete server *)

Lemma failed_creation_is_isolated_witness :
  (exists c1 log2 draft,
      io_for five_tickets (ticket_step demo_respond "p" "bugs" "o" "r" false)
             0 []
      = io_for (skipn 3 five_tickets)
               (ticket_step demo_respond "p" "bugs" "o" "r" false) c1
               (append log2 (Requested (create_request "o" "r" draft)
                                       RequestException))
      /\ c1 = 2)
  /\ fst (migrate_tickets demo_respond "p" "bugs" "o" "r" 5 "open"
                          (Some 5%Z) false []) = Return 4.
Proof.
  split.
  - do 3 eexists. split.
    + eapply (proj1 (failed_creation_is_isolated demo_respond "p" "bugs" "o" "r")
               (firstn 2 five_tickets) (skipn 3 five_tickets)
               (mk_ticket 3) 0).
      * vm_compute. reflexivity.
      * vm_compute. reflexivity.
      * vm_compute. reflexivity.
    + reflexivity.
  - assert (E : migrate_tickets demo_respond "p" "bugs" "o" "r" 5 "open"
                                (Some 5%Z) false []
                = (Return 4,
                   snd (migrate_tickets demo_respond "p" "bugs" "o" "r" 5
                                        "open" (Some 5%Z) false []))).
    { vm_compute. reflexivity. }
    assert (F : fetch_tickets demo_respond "p" "bugs" 5 "open" 100 []
                = (Return ten_tickets,
                   snd (fetch_tickets demo_respond "p" "bugs" 5 "open" 100 []))).
    { vm_compute. reflexivity. }
    destruct (proj2 (failed_creation_is_isolated demo_respond "p" "bugs" "o" "r")
                    5 "open" (Some 5%Z) ten_tickets _ _ 4 F E) as (_ & H).
    rewrite E. cbn [fst]. apply f_equal.
    apply H; vm_compute; reflexivity.
Defined.

Lemma success_is_issue_creation_only_witness :
  fst (migrate_tickets demo_respond_comments_ok "p" "bugs" "o" "r" 5 "open"
                       (Some 5%Z) false [])
  = fst (migrate_tickets demo_respond "p" "bugs" "o" "r" 5 "open"
                         (Some 5%Z) false [])
  /\ 4 = count_of (create_succeeded "o" "r")
                  (snd (migrate_tickets demo_respond "p" "bugs" "o" "r" 5
                                        "open" (Some 5%Z) false [])).
Proof.
  destruct (success_is_issue_creation_only
              demo_respond "p" "bugs" "o" "r" 5 "open" (Some 5%Z)) as (A & B).
  split.
  - apply (B demo_respond_comments_ok).
    intros h rq N. unfold demo_respond_comments_ok. rewrite N. reflexivity.
  - assert (E : migrate_tickets demo_respond "p" "bugs" "o" "r" 5 "open"
                                (Some 5%Z) false []
                = (Return 4,
                   snd (migrate_tickets demo_respond "p" "bugs" "o" "r" 5
                                        "open" (Some 5%Z) false []))).
    { vm_compute. reflexivity. }
    assert (F : fetch_tickets demo_respond "p" "bugs" 5 "open" 100 []
                = (Return ten_tickets,
                   snd (fetch_tickets demo_respond "p" "bugs" 5 "open" 100 []))).
    { vm_compute. reflexivity. }
    exact (proj1 (A ten_tickets _ _ 4 F E)).
Defined.

(* ================================================================= *)
(** ** More on the transformer: what labels and links look like *)

Lemma lower_char_fixed (c : ascii) : lower_char (lower_char c) = lower_char c.
Proof.
  destruct c as [[|] [|] [|] [|] [|] [|] [|] [|]]; reflexivity.
Qed.

Lemma lower_char_space (c : ascii) :
  Ascii.eqb (lower_char c) " " = Ascii.eqb c " ".
Proof.
  destruct c as [[|] [|] [|] [|] [|] [|] [|] [|]]; reflexivity.
Qed.

Lemma mem_char_append (c : ascii) (a b : string) :
  mem_char c (a ++ b) = mem_char c a || mem_char c b.
Proof.
  induction a as [|x a IH]; simpl; [reflexivity|].
  now rewrite IH, orb_assoc.
Qed.

Lemma py_lower_append (a b : string) :
  py_lower (a ++ b) = py_lower a ++ py_lower b.
Proof.
  induction a as [|x a IH]; simpl; [reflexivity | now rewrite IH].
Qed.

Lemma sanitize_no_space (s : string) : mem_char " " (sanitize s) = false.
Proof.
  unfold sanitize. induction s as [|c s IH]; [reflexivity|].
  cbn [py_lower py_replace].
  destruct (Ascii.eqb (lower_char c) " ") eqn:E.
  - exact IH.
  - cbn [mem_char]. rewrite Ascii.eqb_sym, E. exact IH.
Qed.

Lemma sanitize_lower (s : string) : py_lower (sanitize s) = sanitize s.
Proof.
  unfold sanitize. induction s as [|c s IH]; [reflexivity|].
  cbn [py_lower py_replace].
  destruct (Ascii.eqb (lower_char c) " ") eqn:E.
  - change ("-" ++ py_replace " " "-" (py_lower s))
      with (String "-" (py_replace " " "-" (py_lower s))).
    cbn [py_lower]. now rewrite IH.
  - cbn [py_lower]. now rewrite lower_char_fixed, IH.
Qed.

Lemma status_label_clean (x : string) :
  mem_char " " ("sf-status-" ++ sanitize x) = false
  /\ py_lower ("sf-status-" ++ sanitize x) = "sf-status-" ++ sanitize x.
Proof.
  split.
  - rewrite mem_char_append, sanitize_no_space. reflexivity.
  - rewrite py_lower_append, sanitize_lower. reflexivity.
Qed.

(** X1. No label of a draft contains a space, and every label is in lower
    case already: lower-casing it changes nothing. *)
Theorem labels_have_no_space_no_upper
        (ticket detailed_ticket : json) (draft : IssueDraft) :
  convert_ticket_to_issue ticket detailed_ticket = Ok draft ->
  Forall (fun label => mem_char " " label = false /\ py_lower label = label)
         (labels draft).
Proof.
  intros H. apply convert_inv in H.
  destruct H as (_ & _ & _ & _ & _ & _ & (labels1 & Hs & Hl) & _).
  apply status_labels in Hs. destruct Hs as (-> & _).
  apply truthy_iterated in Hl. rewrite label_loop in Hl.
  injection Hl as <-.
  constructor; [split; reflexivity|].
  apply Forall_app. split.
  - destruct (truthy (status_of ticket)); constructor; [|constructor].
    apply status_label_clean.
  - apply Forall_forall. intros l I. apply in_map_iff in I.
    destruct I as (x & <- & _).
    split; [apply sanitize_no_space | apply sanitize_lower].
Qed.

Lemma labels_have_no_space_no_upper_witness :
  convert_ticket_to_issue ex_ticket ex_detail = Ok ex_draft_detailed
  /\ Forall (fun label => mem_char " " label = false /\ py_lower label = label)
            (labels ex_draft_detailed).
Proof.
  split; [reflexivity|].
  exact (labels_have_no_space_no_upper ex_ticket ex_detail ex_draft_detailed
                                       eq_refl).
Defined.

Lemma split_keeps_absent (c sep : ascii) (s : string) :
  mem_char c s = false ->
  Forall (fun x => mem_char c x = false) (py_split sep s).
Proof.
  induction s as [|d s IH]; cbn [mem_char py_split]; intros H.
  - constructor; [reflexivity | constructor].
  - apply orb_false_iff in H. destruct H as (Hd & Hs).
    specialize (IH Hs).
    destruct (Ascii.eqb d sep).
    + constructor; [reflexivity | exact IH].
    + destruct (py_split sep s) as [|x xs].
      * constructor; [|constructor]. cbn [mem_char]. now rewrite Hd.
      * inversion IH as [|? ? Hx Hxs]; subst.
        constructor; [|exact Hxs]. cbn [mem_char]. now rewrite Hd, Hx.
Qed.

Lemma derived_filename_clean (url : string) :
  derived_filename url <> ""
  /\ mem_char "/" (derived_filename url) = false
  /\ mem_char "?" (derived_filename url) = false.
Proof.
  destruct (derived_filename_spec url) as [(b & a & E & N & _) | (_ & E)].
  - pose proof (split_free "/" (before_query url)) as F1.
    pose proof (split_keeps_absent "?" "/" (before_query url)
                  (proj2 (before_query_spec url))) as F2.
    rewrite E in F1, F2.
    apply Forall_app in F1, F2.
    destruct F1 as (_ & F1), F2 as (_ & F2).
    apply Forall_inv in F1, F2.
    split; [|split; assumption].
    intros Z. apply N. now left.
  - rewrite E. repeat split. discriminate.
Qed.

Lemma absolute_url_shape (url : string) :
  (starts_with "http://" (absolute_url url)
   \/ starts_with "https://" (absolute_url url))
  /\ ends_with url (absolute_url url).
Proof.
  unfold absolute_url, source_host.
  destruct (String.prefix "http://" url) eqn:P1; cbn [orb].
  - apply prefix_starts_with in P1. split; [now left | now exists ""].
  - destruct (String.prefix "https://" url) eqn:P2.
    + apply prefix_starts_with in P2. split; [now right | now exists ""].
    + destruct (String.prefix "/" url).
      * split; [right; now exists ("sourceforge.net" ++ url)|].
        now exists "https://sourceforge.net".
      * split; [right; now exists ("sourceforge.net/" ++ url)|].
        now exists "https://sourceforge.net/".
Qed.

(** X2. For every attachment with a non-empty URL string, the line added
    to the body has a link text that is never empty and contains neither a
    slash nor a question mark, and a link target that is always an
    absolute http(s) URL ending with the URL as it was given, query string
    included. *)
Theorem attachment_link_is_well_formed
        (body_parts : list json) (att : json) (url : string) :
  py_get att "url" (JStr "") = Ok (JStr url) -> url <> "" ->
  exists filename full_url,
    attachment_step body_parts att
    = Ok (append body_parts (JStr (markdown_line filename full_url)))
    /\ filename <> ""
    /\ mem_char "/" filename = false
    /\ mem_char "?" filename = false
    /\ (starts_with "http://" full_url \/ starts_with "https://" full_url)
    /\ ends_with url full_url.
Proof.
  intros G U. exists (derived_filename url), (absolute_url url).
  split; [exact (attachment_step_url body_parts att url G U)|].
  destruct (derived_filename_clean url) as (A & B & C).
  destruct (absolute_url_shape url) as (D & E).
  repeat split; assumption.
Qed.

Lemma attachment_link_is_well_formed_witness :
  exists filename full_url,
    attachment_step [] (JDict [("url", JStr "a/b.tar.gz?download=1")])
    = Ok (append [] (JStr (markdown_line filename full_url)))
    /\ filename <> ""
    /\ mem_char "/" filename = false
    /\ mem_char "?" filename = false
    /\ (starts_with "http://" full_url \/ starts_with "https://" full_url)
    /\ ends_with "a/b.tar.gz?download=1" full_url.
Proof.
  apply (attachment_link_is_well_formed
           [] (JDict [("url", JStr "a/b.tar.gz?download=1")])
           "a/b.tar.gz?download=1"); [reflexivity | discriminate].
Defined.

Lemma no_url_no_lines (xs : list json) :
  Forall (fun att => truthy (field att "url" (JStr "")) = false) xs ->
  flat_map spec_attachment_lines xs = [].
Proof.
  induction 1 as [|x xs H _ IH]; simpl; [reflexivity|].
  unfold spec_attachment_lines at 1. now rewrite H, IH.
Qed.

(** X3. The "Attachments" heading depends on the attachment list alone:
    when the detail lists attachments but none of them has a URL, the body
    still ends with the heading, with nothing under it. *)
Theorem attachments_heading_without_lines
        (ticket detailed_ticket : json) (draft : IssueDraft) :
  convert_ticket_to_issue ticket detailed_ticket = Ok draft ->
  truthy (source_attachments detailed_ticket) = true ->
  Forall (fun att => truthy (field att "url" (JStr "")) = false)
         (elements (source_attachments detailed_ticket)) ->
  body draft
  = join nl (List.app (header_lines ticket detailed_ticket)
                      [""; "---"; ""; "## Attachments"; ""]).
Proof.
  intros H T F.
  pose proof (converts_convertible _ _ _ H) as C.
  rewrite (convertible_converts _ _ C) in H. injection H as <-.
  unfold spec_draft. cbn [body]. unfold attachment_section.
  rewrite T, (no_url_no_lines _ F). reflexivity.
Qed.

Lemma attachments_heading_without_lines_witness :
  let detail := JDict [("ticket", JDict [("attachments",
                          JList [JDict [("url", JStr "")]; JDict []])])] in
  body (spec_draft ex_ticket detail)
  = join nl (List.app (header_lines ex_ticket detail)
                      [""; "---"; ""; "## Attachments"; ""]).
Proof.
  intros detail.
  apply (attachments_heading_without_lines ex_ticket detail).
  - reflexivity.
  - reflexivity.
  - repeat constructor.
Defined.

(* ================================================================= *)
(** ** More on the reader: odd payloads and what is sent *)

Section ReaderEdges.

Variable respond : list action -> request -> response.
Variables project_name tracker_name status : string.
Variable limit : Z.
Variable log0 : list event.

Let plog := page_log respond project_name tracker_name status limit log0.
Let presp := page_response respond project_name tracker_name status limit log0.
Let coll := collected respond project_name tracker_name status limit log0.
Let stops := stops_at respond project_name tracker_name status limit log0.
Let pok := page_ok respond project_name tracker_name status limit log0.
Let sreq := search_request project_name tracker_name status limit.
Let floop := fetch_loop respond project_name tracker_name.

(** After [k] pages that did not end the loop, the loop is at page [k]. *)
Lemma fetch_loop_reaches (k : nat) :
  (forall i, i < k -> pok i = true) ->
  (forall i, i < k -> stops i = false) ->
  forall fuel p, p <= k ->
    floop (k - p + fuel) status limit p (coll p) (plog p)
    = floop fuel status limit k (coll k) (plog k).
Proof.
  intros W N fuel p. remember (k - p) as d eqn:D. revert p D.
  induction d as [|d IH]; intros p D L.
  - replace p with k by lia. reflexivity.
  - change (S d + fuel) with (S (d + fuel)).
    unfold floop, coll, plog.
    rewrite fetch_loop_step by (apply W; lia).
    fold floop coll plog.
    change (stops_at respond project_name tracker_name status limit log0 p)
      with (stops p).
    rewrite N by lia. apply IH; lia.
Qed.

(** The turn of the loop on a body that is not a JSON object. *)
Lemma fetch_loop_not_object (fuel p : nat) (data : json) :
  presp p = Body data -> is_dict data = false ->
  floop (S fuel) status limit p (coll p) (plog p)
  = (Throw AttributeError, append (plog p) (Requested (sreq p) (Body data))).
Proof.
  intros R D. unfold floop. cbn [fetch_loop].
  unfold io_bind at 1. unfold http at 1.
  change (Get (sf_base_url project_name tracker_name ++ "/search")
              (search_params status limit p)) with (sreq p).
  change (respond (history (plog p)) (sreq p)) with (presp p).
  rewrite R. unfold io_bind.
  destruct data; try discriminate; reflexivity.
Qed.

End ReaderEdges.

(** X4. A page whose body is not a JSON object makes the reader raise
    AttributeError: unlike a failed request, which returns the records
    collected so far, it loses them. *)
Theorem reader_raises_on_non_object_page
        (respond : list action -> request -> response)
        (project_name tracker_name status : string) (limit : Z)
        (log0 : list event) (k : nat) (data : json) :
  (forall i, i < k ->
     page_ok respond project_name tracker_name status limit log0 i = true) ->
  (forall i, i < k ->
     stops_at respond project_name tracker_name status limit log0 i = false) ->
  page_response respond project_name tracker_name status limit log0 k
  = Body data ->
  is_dict data = false ->
  forall fuel, k < fuel ->
    fetch_tickets respond project_name tracker_name fuel status limit log0
    = (Throw AttributeError,
       append (page_log respond project_name tracker_name status limit log0 k)
              (Requested
                 (search_request project_name tracker_name status limit k)
                 (Body data))).
Proof.
  intros W N R D fuel F. unfold fetch_tickets.
  pose proof (fetch_loop_reaches respond project_name tracker_name status
                limit log0 k W N (fuel - k) 0 ltac:(lia)) as E.
  cbv zeta in E. simpl collected in E at 1. simpl page_log in E at 1.
  replace (k - 0 + (fuel - k)) with fuel in E by lia.
  rewrite E.
  destruct (fuel - k) as [|f] eqn:Ef; [lia|].
  apply fetch_loop_not_object; assumption.
Qed.

Lemma reader_raises_on_non_object_page_witness :
  let respond := fun (h : list action) (rq : request) =>
                   if Nat.eqb (List.length h) 0 then demo_respond h rq
                   else Body (JList []) in
  fst (fetch_tickets respond "p" "bugs" 5 "open" 100 [])
  = Throw AttributeError.
Proof.
  intros respond.
  rewrite (reader_raises_on_non_object_page
             respond "p" "bugs" "open" 100 [] 1 (JList [])).
  - reflexivity.
  - intros i Hi. destruct i as [|i]; [reflexivity | lia].
  - intros i Hi. destruct i as [|i]; [reflexivity | lia].
  - reflexivity.
  - reflexivity.
  - lia.
Defined.

(** X5. The total count defaults to 0: a page that carries records but no
    "count" ends pagination at once, whatever the server has left. *)
Theorem reader_stops_without_count
        (respond : list action -> request -> response)
        (project_name tracker_name status : string) (limit : Z)
        (log0 : list event) (k : nat)
        (kvs : list (string * json)) (records : list json) :
  (forall i, i < k ->
     page_ok respond project_name tracker_name status limit log0 i = true) ->
  (forall i, i < k ->
     stops_at respond project_name tracker_name status limit log0 i = false) ->
  page_response respond project_name tracker_name status limit log0 k
  = Body (JDict kvs) ->
  dict_get kvs "tickets" = Some (JList records) ->
  dict_get kvs "count" = None ->
  forall fuel, k < fuel ->
    fetch_tickets respond project_name tracker_name fuel status limit log0
    = (Return (List.app (collected respond project_name tracker_name status
                                   limit log0 k) records),
       append (page_log respond project_name tracker_name status limit log0 k)
              (Requested
                 (search_request project_name tracker_name status limit k)
                 (Body (JDict kvs)))).
Proof.
  intros W N R T C fuel F. unfold fetch_tickets.
  pose proof (fetch_loop_stops respond project_name tracker_name status limit
                log0 k 0) as S.
  cbv zeta in S. simpl collected in S at 1. simpl page_log in S at 1.
  rewrite Nat.add_0_l in S. rewrite S; try assumption.
  - cbn [collected]. rewrite R.
    unfold page_records, page_tickets. cbn [field]. rewrite T. reflexivity.
  - intros i Hi. destruct (Nat.eq_dec i k) as [->|D]; [|apply W; lia].
    unfold page_ok. rewrite R. cbn [is_dict field andb]. rewrite T, C.
    destruct records as [|r rs]; [reflexivity|].
    cbn [truthy negb orb]. unfold iterates. cbn [py_iter].
    rewrite andb_true_r. clear. generalize (r :: rs).
    intros l. induction l; simpl; auto.
  - intros i Hi. apply N. lia.
  - unfold stops_at, request_failed, empty_page, total_reached.
    rewrite R. cbn [orb field]. rewrite T.
    unfold reported_total. cbn [field]. rewrite C.
    destruct records as [|r rs]; [reflexivity|]. cbn [truthy negb orb].
    apply Z.leb_le. lia.
Qed.

Lemma reader_stops_without_count_witness :
  let respond := fun (h : list action) (rq : request) =>
                   Body (JDict [("tickets", JList (firstn 4 ten_tickets))]) in
  fetch_tickets respond "p" "bugs" 5 "open" 100 []
  = (Return (firstn 4 ten_tickets),
     [Requested (search_request "p" "bugs" "open" 100 0)
                (Body (JDict [("tickets", JList (firstn 4 ten_tickets))]))]).
Proof.
  intros respond.
  apply (reader_stops_without_count
           respond "p" "bugs" "open" 100 [] 0
           [("tickets", JList (firstn 4 ten_tickets))] (firstn 4 ten_tickets)).
  - intros i Hi. lia.
  - intros i Hi. lia.
  - reflexivity.
  - reflexivity.
  - reflexivity.
  - lia.
Defined.

(* ================================================================= *)
(** ** More on the reader and the orchestrator: traces and aborts *)

Section MoreFacts.

Variable respond : list action -> request -> response.
Variables project_name tracker_name owner repo : string.

Lemma fetch_loop_reader_events (fuel : nat) (status : string) (limit : Z)
      (page : nat) (tickets : list json) :
  emits (reader_event project_name tracker_name status limit)
        (fetch_loop respond project_name tracker_name fuel status limit
                    page tickets).
Proof.
  revert page tickets.
  induction fuel as [|fuel IH]; intros page tickets; simpl.
  - intros log. exists []. simpl. now rewrite app_nil_r.
  - apply emits_bind.
    + apply emits_http. intros rs. right. exists page, rs. reflexivity.
    + intros [|data]; [apply emits_ret|].
      apply emits_bind; [apply emits_lift|]. intros ticket_list.
      apply emits_if; [apply emits_ret|].
      apply emits_bind; [apply emits_lift|]. intros tickets'.
      apply emits_bind; [apply emits_lift|]. intros count.
      apply emits_bind; [apply emits_lift|]. intros enough.
      apply emits_if; [apply emits_ret|].
      apply emits_bind; [apply emits_sleep; now left|]. intros _. apply IH.
Qed.

Lemma comment_loop_run (issue_number : json) (comments : list string)
      (log : list event) :
  io_for comments (comment_step respond owner repo issue_number) tt log
  = (Return tt, comment_events respond owner repo issue_number comments log).
Proof.
  revert log. induction comments as [|c cs IH]; intros log; simpl.
  - reflexivity.
  - unfold io_bind at 1. unfold comment_step at 1.
    unfold add_comment, io_bind, http, sleep, ret, append.
    fold (comment_request owner repo issue_number c).
    destruct (respond (history log) (comment_request owner repo issue_number c));
      rewrite <- app_assoc; apply IH.
Qed.

Lemma slice_nil (n : Z) : slice_to [] n = [].
Proof.
  unfold slice_to. destruct (0 <=? n)%Z; apply firstn_nil.
Qed.

Lemma apply_limit_nil (limit : option Z) : apply_limit limit [] = [].
Proof.
  destruct limit as [n|]; [|reflexivity]. unfold apply_limit.
  destruct (limit_truthy (Some n)); [apply slice_nil | reflexivity].
Qed.

End MoreFacts.

(** X6. The reader only reads, and only one endpoint: every event it adds
    to the trace is a search request (the one URL, with the page size, a
    page number and the status filter) or a pause of one second; it never
    sends anything to the destination. *)
Theorem reader_sends_only_search_requests
        (respond : list action -> request -> response)
        (project_name tracker_name : string)
        (fuel : nat) (status : string) (limit : Z) (log : list event) :
  exists new,
    snd (fetch_tickets respond project_name tracker_name fuel status limit log)
    = List.app log new
    /\ Forall (reader_event project_name tracker_name status limit) new
    /\ Forall (fun e => is_write e = false) new.
Proof.
  destruct (fetch_loop_reader_events respond project_name tracker_name
              fuel status limit 0 [] log) as (new & E & F).
  exists new. split; [exact E|]. split; [exact F|].
  eapply Forall_impl; [|exact F].
  intros e [-> | (page & rs & ->)]; reflexivity.
Qed.

(** X7. When the very first search request fails, the run processes
    nothing and still returns normally, with a count of 0 and that one
    request on the trace: an unreachable source looks like an empty
    tracker. *)
Theorem unreachable_source_migrates_nothing
        (respond : list action -> request -> response)
        (project_name tracker_name owner repo : string)
        (fuel : nat) (status : string) (limit : option Z) (dry_run : bool)
        (log : list event) :
  respond (history log) (search_request project_name tracker_name status 100 0)
  = RequestException ->
  migrate_tickets respond project_name tracker_name owner repo
                  (S fuel) status limit dry_run log
  = (Return 0,
     append log (Requested (search_request project_name tracker_name status
                                           100 0)
                           RequestException)).
Proof.
  intros R. unfold migrate_tickets, fetch_tickets. cbn [fetch_loop].
  unfold io_bind at 1. unfold io_bind at 1. unfold http at 1.
  fold (search_request project_name tracker_name status 100 0).
  rewrite R. unfold ret. rewrite apply_limit_nil. reflexivity.
Qed.

Lemma unreachable_source_migrates_nothing_witness :
  migrate_tickets failing_respond "p" "bugs" "o" "r" 3 "open" None false []
  = (Return 0,
     [Requested (search_request "p" "bugs" "open" 100 0) RequestException]).
Proof.
  exact (unreachable_source_migrates_nothing
           failing_respond "p" "bugs" "o" "r" 2 "open" None false [] eq_refl).
Defined.

(** X8. The detail of a record is optional in two ways: a record without
    a "ticket_num" entry is converted from the summary alone and no
    request is sent for it; and when the detail request fails, the record
    is converted from the summary alone too, with no pause after the
    failed request. *)
Theorem detail_is_optional
        (respond : list action -> request -> response)
        (project_name tracker_name : string)
        (kvs : list (string * json)) (log : list event) :
  (dict_get kvs "ticket_num" = None ->
   prepare_issue respond project_name tracker_name (JDict kvs) log
   = lift (convert_ticket_to_issue (JDict kvs) JNull) log)
  /\ (forall ticket_num,
        dict_get kvs "ticket_num" = Some ticket_num ->
        ne_str ticket_num "unknown" = true ->
        respond (history log)
                (detail_request project_name tracker_name ticket_num)
        = RequestException ->
        prepare_issue respond project_name tracker_name (JDict kvs) log
        = lift (convert_ticket_to_issue (JDict kvs) JNull)
               (append log
                       (Requested (detail_request project_name tracker_name
                                                  ticket_num)
                                  RequestException))).
Proof.
  split.
  - intros N. unfold prepare_issue. cbn [py_get]. rewrite N.
    unfold io_bind, lift, ret.
    change (ne_str (JStr "unknown") "unknown") with false. reflexivity.
  - intros ticket_num G N R. unfold prepare_issue. cbn [py_get]. rewrite G.
    unfold io_bind at 1. rewrite lift_Ok. rewrite N.
    unfold fetch_ticket_details, io_bind, http, ret.
    fold (detail_request project_name tracker_name ticket_num).
    rewrite R. cbn [truthy]. reflexivity.
Qed.

Lemma detail_is_optional_witness :
  prepare_issue failing_respond "p" "bugs"
                (JDict [("summary", JStr "no number")]) []
  = (Return (spec_draft (JDict [("summary", JStr "no number")]) JNull), [])
  /\ fst (prepare_issue failing_respond "p" "bugs" ex_ticket [])
     = Return ex_draft_summary_only.
Proof.
  split.
  - exact (proj1 (detail_is_optional failing_respond "p" "bugs"
                    [("summary", JStr "no number")] []) eq_refl).
  - unfold ex_ticket.
    rewrite (proj2 (detail_is_optional failing_respond "p" "bugs"
                      [("ticket_num", JInt 42); ("summary", JStr "Crash on save");
                       ("status", JStr "open"); ("reported_by", JStr "alice")]
                      [])
                   (JInt 42) eq_refl eq_refl eq_refl).
    reflexivity.
Defined.

(* ================================================================= *)
(** ** More on the orchestrator: the trace of a record, and aborts *)

Lemma ticket_step_created
      (respond : list action -> request -> response)
      (project_name tracker_name owner repo : string)
      (c : nat) (ticket : json) (draft : IssueDraft) (log log2 : list event)
      (issue issue_number : json) :
  prepare_issue respond project_name tracker_name ticket log
  = (Return draft, log2) ->
  respond (history log2) (create_request owner repo draft) = Body issue ->
  py_getitem issue "number" = Ok issue_number ->
  ticket_step respond project_name tracker_name owner repo false c ticket log
  = (Return (c + 1),
     append
       (if truthy issue_number
        then comment_events respond owner repo issue_number (comments draft)
               (append log2 (Requested (create_request owner repo draft)
                                       (Body issue)))
        else append log2 (Requested (create_request owner repo draft)
                                    (Body issue)))
       (Slept 2)).
Proof.
  intros P R G. unfold ticket_step.
  rewrite (io_bind_Return _ _ _ _ _ P).
  unfold io_bind at 1. rewrite create_issue_run. cbv zeta. rewrite R, G.
  assert (T : truthy issue = true /\ is_dict issue = true
              /\ field issue "number" JNull = issue_number).
  { destruct issue as [ | | | | |kvs]; try discriminate.
    simpl in G. unfold field.
    destruct (dict_get kvs "number") eqn:D; [|discriminate].
    injection G as <-.
    destruct kvs; [discriminate | repeat split]. }
  destruct T as (T & D & F). rewrite T.
  rewrite (py_get_dict issue "number" JNull D), F.
  unfold io_bind at 1. rewrite lift_Ok.
  unfold io_bind at 1.
  destruct (comments draft) as [|c0 cs] eqn:Cs.
  - unfold ret, io_bind, sleep. destruct (truthy issue_number); reflexivity.
  - destruct (truthy issue_number).
    + rewrite comment_loop_run. reflexivity.
    + reflexivity.
Qed.

Lemma comment_events_history
      (respond : list action -> request -> response) (owner repo : string)
      (issue_number : json) (comments : list string) (log : list event) :
  history (comment_events respond owner repo issue_number comments log)
  = List.app (history log)
      (flat_map (fun comment =>
                   [Sent (comment_request owner repo issue_number comment);
                    Waited 1])
                comments).
Proof.
  revert log. induction comments as [|c cs IH]; intros log; simpl.
  - now rewrite app_nil_r.
  - rewrite IH, history_app, <- app_assoc. reflexivity.
Qed.

(** X9. When the issue of a record is created and has a non-zero number,
    the comments of the draft are sent to that issue in draft order, one
    request each and each followed by a pause of one second whatever the
    answer; a pause of two seconds ends the record, which is counted. *)
Theorem created_issue_gets_comments_in_order
        (respond : list action -> request -> response)
        (project_name tracker_name owner repo : string)
        (c : nat) (ticket : json) (draft : IssueDraft) (log log2 : list event)
        (issue issue_number : json) :
  prepare_issue respond project_name tracker_name ticket log
  = (Return draft, log2) ->
  respond (history log2) (create_request owner repo draft) = Body issue ->
  py_getitem issue "number" = Ok issue_number ->
  truthy issue_number = true ->
  fst (ticket_step respond project_name tracker_name owner repo false c
                   ticket log) = Return (c + 1)
  /\ history (snd (ticket_step respond project_name tracker_name owner repo
                               false c ticket log))
     = List.app (history log2)
         (Sent (create_request owner repo draft)
          :: List.app
               (flat_map (fun comment =>
                            [Sent (comment_request owner repo issue_number
                                                   comment);
                             Waited 1])
                         (comments draft))
               [Waited 2]).
Proof.
  intros P R G T.
  rewrite (ticket_step_created respond project_name tracker_name owner repo
             c ticket draft log log2 issue issue_number P R G).
  rewrite T. cbn [fst snd]. split; [reflexivity|].
  unfold append. rewrite history_app, comment_events_history, history_app.
  rewrite <- !app_assoc. reflexivity.
Qed.

Lemma created_issue_gets_comments_in_order_witness :
  fst (ticket_step demo_respond "p" "bugs" "o" "r" false 0 (mk_ticket 1) [])
  = Return 1
  /\ skipn 2 (history (snd (ticket_step demo_respond "p" "bugs" "o" "r" false
                                        0 (mk_ticket 1) [])))
     = [Sent (create_request "o" "r" (spec_draft (mk_ticket 1) ex_detail));
        Sent (comment_request "o" "r" (JInt 7)
                (spec_comment (JDict [("author", JStr "bob");
                                      ("timestamp", JStr "2020");
                                      ("text", JStr "me too")])));
        Waited 1; Waited 2].
Proof.
  destruct (created_issue_gets_comments_in_order
              demo_respond "p" "bugs" "o" "r" 0 (mk_ticket 1)
              (spec_draft (mk_ticket 1) ex_detail) []
              [Requested (detail_request "p" "bugs" (JInt 1)) (Body ex_detail);
               Slept 1]
              (JDict [("number", JInt 7)]) (JInt 7)
              eq_refl eq_refl eq_refl eq_refl) as (A & B).
  split; [exact A|]. rewrite B. reflexivity.
Defined.

(** X10. When the created issue comes back with a number that is 0 or
    null, no comment is sent although the draft has comments; the record
    is counted all the same. *)
Theorem no_comments_without_issue_number
        (respond : list action -> request -> response)
        (project_name tracker_name owner repo : string)
        (c : nat) (ticket : json) (draft : IssueDraft) (log log2 : list event)
        (issue issue_number : json) :
  prepare_issue respond project_name tracker_name ticket log
  = (Return draft, log2) ->
  respond (history log2) (create_request owner repo draft) = Body issue ->
  py_getitem issue "number" = Ok issue_number ->
  truthy issue_number = false ->
  ticket_step respond project_name tracker_name owner repo false c ticket log
  = (Return (c + 1),
     List.app log2
       [Requested (create_request owner repo draft) (Body issue); Slept 2]).
Proof.
  intros P R G T.
  rewrite (ticket_step_created respond project_name tracker_name owner repo
             c ticket draft log log2 issue issue_number P R G).
  rewrite T. unfold append. rewrite <- app_assoc. reflexivity.
Qed.

Lemma no_comments_without_issue_number_witness :
  let respond := fun (h : list action) (rq : request) =>
                   match rq with
                   | Post _ _ => Body (JDict [("number", JNull)])
                   | Get _ _ => demo_respond h rq
                   end in
  ticket_step respond "p" "bugs" "o" "r" false 0 (mk_ticket 1) []
  = (Return 1,
     [Requested (detail_request "p" "bugs" (JInt 1)) (Body ex_detail);
      Slept 1;
      Requested (create_request "o" "r" (spec_draft (mk_ticket 1) ex_detail))
                (Body (JDict [("number", JNull)]));
      Slept 2])
  /\ comments (spec_draft (mk_ticket 1) ex_detail) <> [].
Proof.
  intros respond. split; [|discriminate].
  exact (no_comments_without_issue_number
           respond "p" "bugs" "o" "r" 0 (mk_ticket 1)
           (spec_draft (mk_ticket 1) ex_detail) []
           [Requested (detail_request "p" "bugs" (JInt 1)) (Body ex_detail);
            Slept 1]
           (JDict [("number", JNull)]) JNull
           eq_refl eq_refl eq_refl eq_refl).
Defined.

(** X11. Nothing in the loop catches an exception: when the detail fetch
    and conversion of a record raises (the transform rejects the record),
    the run ends with that exception, in preview mode as in a writing run;
    the records after it are never processed and the count reached so far
    is lost. *)
Theorem rejected_record_aborts_run
        (respond : list action -> request -> response)
        (project_name tracker_name owner repo : string) (dry_run : bool)
        (before after : list json) (ticket : json) (c0 c1 : nat)
        (log0 log1 log2 : list event) (e : exn) :
  io_for before
         (ticket_step respond project_name tracker_name owner repo dry_run)
         c0 log0 = (Return c1, log1) ->
  prepare_issue respond project_name tracker_name ticket log1
  = (Throw e, log2) ->
  io_for (List.app before (ticket :: after))
         (ticket_step respond project_name tracker_name owner repo dry_run)
         c0 log0
  = (Throw e, log2).
Proof.
  intros Hb Hp. rewrite io_for_app, (io_bind_Return _ _ _ _ _ Hb).
  cbn [io_for]. unfold io_bind at 1. unfold ticket_step at 1.
  now rewrite (io_bind_Throw _ _ _ _ _ Hp).
Qed.

Lemma rejected_record_aborts_run_witness :
  io_for [mk_ticket 1;
          JDict [("ticket_num", JInt 2); ("status", JInt 404)];
          mk_ticket 3]
         (ticket_step demo_respond "p" "bugs" "o" "r" true) 0 []
  = (Throw AttributeError,
     [Requested (detail_request "p" "bugs" (JInt 1)) (Body ex_detail);
      Slept 1;
      Requested (detail_request "p" "bugs" (JInt 2)) (Body ex_detail);
      Slept 1]).
Proof.
  exact (rejected_record_aborts_run
           demo_respond "p" "bugs" "o" "r" true
           [mk_ticket 1] [mk_ticket 3]
           (JDict [("ticket_num", JInt 2); ("status", JInt 404)])
           0 1 [] _ _ AttributeError eq_refl eq_refl).
Defined.

(** X12. [create_issue] reads the number of the created issue for its log
    message outside of what it catches: when the destination accepts the
    request but its answer has no "number", the exception (KeyError for an
    object without the entry, TypeError for anything else) ends the whole
    run, after the issue was created. *)
Theorem answer_without_number_aborts_run
        (respond : list action -> request -> response)
        (project_name tracker_name owner repo : string)
        (before after : list json) (ticket : json) (c0 c1 : nat)
        (log0 log1 log2 : list event) (draft : IssueDraft) (issue : json)
        (e : exn) :
  io_for before
         (ticket_step respond project_name tracker_name owner repo false)
         c0 log0 = (Return c1, log1) ->
  prepare_issue respond project_name tracker_name ticket log1
  = (Return draft, log2) ->
  respond (history log2) (create_request owner repo draft) = Body issue ->
  py_getitem issue "number" = Raise e ->
  io_for (List.app before (ticket :: after))
         (ticket_step respond project_name tracker_name owner repo false)
         c0 log0
  = (Throw e,
     append log2 (Requested (create_request owner repo draft) (Body issue)))
  /\ (e = KeyError \/ e = TypeError).
Proof.
  intros Hb Hp R G. split.
  - rewrite io_for_app, (io_bind_Return _ _ _ _ _ Hb).
    cbn [io_for]. unfold io_bind at 1. unfold ticket_step at 1.
    rewrite (io_bind_Return _ _ _ _ _ Hp).
    unfold io_bind at 1. rewrite create_issue_run. cbv zeta. rewrite R, G.
    reflexivity.
  - destruct issue as [ | | | | |kvs]; simpl in G;
      try (injection G as <-; now right).
    destruct (dict_get kvs "number"); [discriminate|].
    injection G as <-. now left.
Qed.

Lemma answer_without_number_aborts_run_witness :
  let respond := fun (h : list action) (rq : request) =>
                   match rq with
                   | Post _ _ => Body (JDict [("id", JInt 7)])
                   | Get _ _ => demo_respond h rq
                   end in
  fst (io_for [mk_ticket 1; mk_ticket 2]
              (ticket_step respond "p" "bugs" "o" "r" false) 0 [])
  = Throw KeyError.
Proof.
  intros respond.
  exact (f_equal fst
           (proj1 (answer_without_number_aborts_run
                     respond "p" "bugs" "o" "r" [] [mk_ticket 2] (mk_ticket 1)
                     0 0 [] [] _ (spec_draft (mk_ticket 1) ex_detail)
                     (JDict [("id", JInt 7)]) KeyError
                     eq_refl eq_refl eq_refl eq_refl))).
Defined.

(** X13. Every draft the transform returns has at least the marker label,
    so the request that creates its issue always carries exactly three
    entries: title, body and the labels of the draft. *)
Theorem creation_request_always_has_labels
        (respond : list action -> request -> response)
        (owner repo : string) (ticket detailed_ticket : json)
        (draft : IssueDraft) (log : list event) :
  convert_ticket_to_issue ticket detailed_ticket = Ok draft ->
  exists rs,
    snd (create_issue respond owner repo (title draft) (body draft)
                      (labels draft) log)
    = append log
        (Requested
           (Post (issues_url owner repo)
                 (JDict [("title", JStr (title draft));
                         ("body", JStr (body draft));
                         ("labels", JList (map JStr (labels draft)))]))
           rs).
Proof.
  intros H.
  pose proof (converts_convertible _ _ _ H) as C.
  rewrite (convertible_converts _ _ C) in H. injection H as <-.
  rewrite create_issue_run. cbv zeta.
  unfold create_request. cbn [title body labels spec_draft spec_labels List.app].
  match goal with
  | |- context [respond ?h ?rq] => destruct (respond h rq) as [|issue]
  end.
  - eexists. reflexivity.
  - destruct (py_getitem issue "number"); eexists; reflexivity.
Qed.

Lemma creation_request_always_has_labels_witness :
  exists rs,
    snd (create_issue failing_respond "o" "r"
           (title ex_draft_summary_only) (body ex_draft_summary_only)
           (labels ex_draft_summary_only) [])
    = [Requested
         (Post (issues_url "o" "r")
               (JDict [("title", JStr (title ex_draft_summary_only));
                       ("body", JStr (body ex_draft_summary_only));
                       ("labels",
                        JList (map JStr (labels ex_draft_summary_only)))]))
         rs].
Proof.
  exact (creation_request_always_has_labels
           failing_respond "o" "r" ex_ticket JNull ex_draft_summary_only []
           eq_refl).
Defined.

(* ================================================================= *)
(** ** The command line *)

Section MainFacts.

Variable read_json : string -> option json.
Variable environ : string -> option string.
Variable respond : list action -> request -> response.

Lemma load_step (args : Namespace) :
  (if truthy (of_arg (arg_config args))
   then load_config read_json (py_str (of_arg (arg_config args)))
   else Proceed (JDict []))
  = match loaded_config read_json args with
    | Some config => Proceed config
    | None => SysExit 1
    end.
Proof.
  unfold loaded_config, load_config.
  destruct (arg_config args) as [file|]; [|reflexivity].
  cbn [of_arg truthy py_str].
  destruct (String.eqb file ""); [reflexivity|]. cbn [negb].
  destruct (read_json file); reflexivity.
Qed.

Lemma py_or_dict (arg : option string) (config : json) (key : string)
      (default : json) :
  is_dict config = true ->
  py_or (of_arg arg) (of_result (py_get config key default))
  = Proceed (setting arg config key default).
Proof.
  intros D. unfold py_or, setting. rewrite (py_get_dict _ _ _ D).
  destruct (truthy (of_arg arg)); reflexivity.
Qed.

(** The start of [main] on a configuration that is an object. *)
Lemma startup_settings_dict (args : Namespace) (config : json) :
  loaded_config read_json args = Some config ->
  is_dict config = true ->
  startup_settings read_json environ args
  = if required_given environ args config
    then Proceed
           (mkSettings
              (setting (arg_sf_project args) config "sf_project" JNull)
              (setting (arg_sf_tracker args) config "sf_tracker" (JStr "bugs"))
              (setting (arg_gh_owner args) config "gh_owner" JNull)
              (setting (arg_gh_repo args) config "gh_repo" JNull)
              (token_setting environ args config))
    else SysExit 1.
Proof.
  intros L D. unfold startup_settings. rewrite load_step, L.
  cbn [startup_bind]. rewrite !(py_or_dict _ _ _ _ D). cbn [startup_bind].
  unfold required_given, token_setting, py_or.
  destruct (truthy (setting (arg_gh_token args) config "gh_token" JNull))
    eqn:Tk;
    cbn [startup_bind];
    destruct (truthy (setting (arg_sf_project args) config "sf_project" JNull));
    destruct (truthy (setting (arg_gh_owner args) config "gh_owner" JNull));
    destruct (truthy (setting (arg_gh_repo args) config "gh_repo" JNull));
    cbn [negb andb]; try reflexivity; rewrite ?Tk; try reflexivity;
    destruct (truthy (of_arg (environ "GITHUB_TOKEN"))); reflexivity.
Qed.

End MainFacts.

(** X14. [main] ends with exit status 1, before any request is sent, when
    the configuration file cannot be read, and when the project, the
    owner, the repository or the token is given neither on the command
    line nor in the configuration (nor, for the token, in the
    environment). *)
Theorem missing_parameter_exits_before_network
        (read_json : string -> option json)
        (environ : string -> option string)
        (respond : list action -> request -> response)
        (fuel : nat) (args : Namespace) (log : list event) :
  (loaded_config read_json args = None ->
   main read_json environ respond fuel args log = (Exit 1, log))
  /\ (forall config,
        loaded_config read_json args = Some config ->
        is_dict config = true ->
        required_given environ args config = false ->
        main read_json environ respond fuel args log = (Exit 1, log)).
Proof.
  split.
  - intros L. unfold main, startup_settings. rewrite load_step, L.
    reflexivity.
  - intros config L D R. unfold main.
    rewrite (startup_settings_dict _ _ _ _ L D), R. reflexivity.
Qed.

Lemma missing_parameter_exits_before_network_witness :
  main no_files no_environ demo_respond 5 config_args [] = (Exit 1, [])
  /\ main (fun _ => Some (JDict [("sf_project", JStr "p");
                                 ("gh_owner", JStr "o");
                                 ("gh_repo", JStr "r")]))
          no_environ demo_respond 5 config_args []
     = (Exit 1, []).
Proof.
  split.
  - exact (proj1 (missing_parameter_exits_before_network
                    no_files no_environ demo_respond 5 config_args [])
                 eq_refl).
  - exact (proj2 (missing_parameter_exits_before_network
                    (fun _ => Some (JDict [("sf_project", JStr "p");
                                           ("gh_owner", JStr "o");
                                           ("gh_repo", JStr "r")]))
                    no_environ demo_respond 5 config_args [])
                 _ eq_refl eq_refl eq_refl).
Defined.

(** X15. When the required parameters are given, [main] runs the migration
    with each setting taken from the command line if it is non-empty
    there, else from the configuration, the tracker defaulting to "bugs";
    the exit status is 0 whenever the run returns, whatever the number of
    migrated tickets. *)
Theorem main_runs_with_resolved_settings
        (read_json : string -> option json)
        (environ : string -> option string)
        (respond : list action -> request -> response)
        (fuel : nat) (args : Namespace) (log : list event) (config : json) :
  loaded_config read_json args = Some config ->
  is_dict config = true ->
  required_given environ args config = true ->
  main read_json environ respond fuel args log
  = ending_of
      (migrate_tickets respond
         (py_str (setting (arg_sf_project args) config "sf_project" JNull))
         (py_str (setting (arg_sf_tracker args) config "sf_tracker"
                          (JStr "bugs")))
         (py_str (setting (arg_gh_owner args) config "gh_owner" JNull))
         (py_str (setting (arg_gh_repo args) config "gh_repo" JNull))
         fuel (arg_status args) (arg_limit args) (arg_dry_run args) log)
  /\ (forall n log',
        migrate_tickets respond
          (py_str (setting (arg_sf_project args) config "sf_project" JNull))
          (py_str (setting (arg_sf_tracker args) config "sf_tracker"
                           (JStr "bugs")))
          (py_str (setting (arg_gh_owner args) config "gh_owner" JNull))
          (py_str (setting (arg_gh_repo args) config "gh_repo" JNull))
          fuel (arg_status args) (arg_limit args) (arg_dry_run args) log
        = (Return n, log') ->
        main read_json environ respond fuel args log = (Exit 0, log')).
Proof.
  intros L D R.
  assert (E : main read_json environ respond fuel args log
              = ending_of
                  (migrate_tickets respond
                     (py_str (setting (arg_sf_project args) config
                                      "sf_project" JNull))
                     (py_str (setting (arg_sf_tracker args) config
                                      "sf_tracker" (JStr "bugs")))
                     (py_str (setting (arg_gh_owner args) config
                                      "gh_owner" JNull))
                     (py_str (setting (arg_gh_repo args) config
                                      "gh_repo" JNull))
                     fuel (arg_status args) (arg_limit args)
                     (arg_dry_run args) log)).
  { unfold main. rewrite (startup_settings_dict _ _ _ _ L D), R.
    cbn [sf_project sf_tracker gh_owner gh_repo]. unfold ending_of.
    reflexivity. }
  split; [exact E|].
  intros n log' M. rewrite E, M. reflexivity.
Qed.

Lemma main_runs_with_resolved_settings_witness :
  let read := fun (_ : string) =>
                Some (JDict [("sf_project", JStr "p"); ("gh_owner", JStr "o");
                             ("gh_repo", JStr "r"); ("gh_token", JStr "t")]) in
  main read no_environ failing_respond 5 config_args []
  = (Exit 0,
     [Requested (search_request "p" "bugs" "open" 100 0) RequestException]).
Proof.
  intros read.
  apply (proj2 (main_runs_with_resolved_settings
                  read no_environ failing_respond 5 config_args [] _
                  eq_refl eq_refl eq_refl) 0).
  reflexivity.
Defined.

(** X16. A configuration file that holds JSON other than an object makes
    [main] end with an AttributeError, before any request, as soon as one
    of project, tracker, owner, repository and token is missing from the
    command line. *)
Theorem non_object_config_raises
        (read_json : string -> option json)
        (environ : string -> option string)
        (respond : list action -> request -> response)
        (fuel : nat) (args : Namespace) (log : list event) (config : json) :
  loaded_config read_json args = Some config ->
  is_dict config = false ->
  truthy (of_arg (arg_sf_project args))
  && truthy (of_arg (arg_sf_tracker args))
  && truthy (of_arg (arg_gh_owner args))
  && truthy (of_arg (arg_gh_repo args))
  && truthy (of_arg (arg_gh_token args)) = false ->
  main read_json environ respond fuel args log = (Uncaught AttributeError, log).
Proof.
  intros L D A. unfold main, startup_settings. rewrite load_step, L.
  cbn [startup_bind]. unfold py_or.
  assert (G : forall key default,
             of_result (py_get config key default) = Failed AttributeError).
  { intros key default. destruct config; try reflexivity. discriminate. }
  rewrite !G.
  destruct (truthy (of_arg (arg_sf_project args))); [|reflexivity].
  cbn [startup_bind].
  destruct (truthy (of_arg (arg_sf_tracker args))); [|reflexivity].
  cbn [startup_bind].
  destruct (truthy (of_arg (arg_gh_owner args))); [|reflexivity].
  cbn [startup_bind].
  destruct (truthy (of_arg (arg_gh_repo args))); [|reflexivity].
  cbn [startup_bind].
  destruct (truthy (of_arg (arg_gh_token args))); [discriminate|].
  reflexivity.
Qed.

Lemma non_object_config_raises_witness :
  main (fun _ => Some (JList [])) no_environ demo_respond 5 config_args []
  = (Uncaught AttributeError, []).
Proof.
  exact (non_object_config_raises
           (fun _ => Some (JList [])) no_environ demo_respond 5 config_args []
           (JList []) eq_refl eq_refl eq_refl).
Defined.

(** X17. A command line that gives project, tracker, owner, repository and
    token overrides everything else: the run is the same whatever the
    configuration file holds (as long as it can be read when one is named)
    and whatever the environment. *)
Theorem command_line_overrides_config
        (read_json : string -> option json)
        (environ : string -> option string)
        (respond : list action -> request -> response)
        (fuel : nat) (args : Namespace) (log : list event)
        (config : json) (project tracker owner repo token : string) :
  loaded_config read_json args = Some config ->
  arg_sf_project args = Some project -> project <> "" ->
  arg_sf_tracker args = Some tracker -> tracker <> "" ->
  arg_gh_owner args = Some owner -> owner <> "" ->
  arg_gh_repo args = Some repo -> repo <> "" ->
  arg_gh_token args = Some token -> token <> "" ->
  main read_json environ respond fuel args log
  = ending_of
      (migrate_tickets respond project tracker owner repo
         fuel (arg_status args) (arg_limit args) (arg_dry_run args) log).
Proof.
  intros L P Pn T Tn O On R Rn K Kn.
  apply String.eqb_neq in Pn, Tn, On, Rn, Kn.
  unfold main, startup_settings. rewrite load_step, L.
  cbn [startup_bind]. unfold py_or.
  rewrite P, T, O, R, K.
  repeat (cbn [of_arg truthy negb startup_bind];
          rewrite ?Pn, ?Tn, ?On, ?Rn, ?Kn).
  cbn [sf_project sf_tracker gh_owner gh_repo py_str].
  unfold ending_of. reflexivity.
Qed.

Lemma command_line_overrides_config_witness :
  main (fun _ => Some (JList [JInt 1])) no_environ demo_respond 5
       full_args []
  = ending_of (migrate_tickets demo_respond "p" "bugs" "o" "r" 5 "open"
                               (Some 3%Z) true []).
Proof.
  apply (command_line_overrides_config
           (fun _ => Some (JList [JInt 1])) no_environ demo_respond 5
           full_args [] (JDict []) "p" "bugs" "o" "r" "secret");
    try reflexivity; discriminate.
Defined.

(* ================================================================= *)
(** ** The limit and the listing *)

Lemma ticket_step_emits_events
      (respond : list action -> request -> response)
      (project_name tracker_name owner repo : string)
      (dry_run : bool) (c : nat) (ticket : json) :
  emits (fun _ => True)
        (ticket_step respond project_name tracker_name owner repo dry_run c
                     ticket).
Proof.
  unfold ticket_step.
  apply emits_bind; [apply prepare_issue_emits; auto|]. intros draft.
  apply emits_if; [apply emits_ret|].
  apply emits_bind.
  - unfold create_issue. apply emits_bind; [apply emits_http; auto|].
    intros [|issue]; [apply emits_ret|].
    apply emits_bind; [apply emits_lift | intros; apply emits_ret].
  - intros issue. apply emits_if; [|apply emits_ret].
    apply emits_bind; [apply emits_lift|]. intros issue_number.
    apply emits_bind.
    + destruct (comments draft); [apply emits_ret|].
      apply emits_if; [|apply emits_ret].
      apply emits_for. intros [] cm. unfold comment_step, add_comment.
      apply emits_bind.
      * apply emits_bind; [apply emits_http; auto|].
        intros [|data]; apply emits_ret.
      * intros _. apply emits_sleep. auto.
    + intros _. apply emits_bind; [apply emits_sleep; auto|].
      intros; apply emits_ret.
Qed.

(** X18. The limit is applied after the whole listing was fetched: every
    run starts with the complete pagination, page size 100, and the trace
    of that pagination is the same for every limit and in both modes. *)
Theorem limit_does_not_shorten_listing
        (respond : list action -> request -> response)
        (project_name tracker_name owner repo : string)
        (fuel : nat) (status : string) (limit : option Z) (dry_run : bool)
        (log : list event) :
  exists new,
    snd (migrate_tickets respond project_name tracker_name owner repo
                         fuel status limit dry_run log)
    = List.app
        (snd (fetch_tickets respond project_name tracker_name fuel status 100
                            log))
        new.
Proof.
  unfold migrate_tickets, io_bind.
  destruct (fetch_tickets respond project_name tracker_name fuel status 100 log)
    as [[tickets|e| ] log1]; cbn [snd].
  - unfold migrate_loop.
    destruct (emits_for (fun _ => True) (apply_limit limit tickets)
                (ticket_step respond project_name tracker_name owner repo
                             dry_run) 0
                (ticket_step_emits_events respond project_name tracker_name
                                          owner repo dry_run) log1)
      as (new & E & _).
    exists new. exact E.
  - exists []. now rewrite app_nil_r.
  - exists []. now rewrite app_nil_r.
Qed.
